(** * Spot robot-state client: clock-skew correction, frame tree and odometry

    A shallow embedding of
      - [spot_driver_cpp/src/api/default_robot_state_client.cpp]
      - [spot_driver/src/api/default_state_client.cpp]
    followed by the properties of the state-aggregation pipeline.

    Conventions of the embedding:
      - a protobuf [double] is an IEEE-754 binary64 value ([PrimFloat.float]);
        the client only copies such values, it never computes with them;
      - protobuf integers and enums are [Z]; where the code stores one into
        a narrower message field through a builder ([toDuration]), the
        conversion is written out;
      - a sub-message the code tests with [has_x()] is an [option]; a
        sub-message the code only reads through its accessor is stored by
        value (protobuf accessors return the default instance when unset);
      - a protobuf [map] is the list of its entries in iteration order;
      - a C++ exception leaving a function is the [Thrown] outcome;
      - the Boston Dynamics SDK ([bosdyn/math]) is an interface the client is
        parameterised by. *)

From Stdlib Require Import ZArith Lia List String Ascii Bool Floats Relations.
Import ListNotations.

Local Open Scope string_scope.
Local Open Scope Z_scope.

Definition double : Type := PrimFloat.float.

(** ** Control flow: exceptions and [tl::expected] *)

Inductive Exception : Type :=
  | out_of_range          (* std::map::at on a missing key *)
  | bad_optional_access.  (* std::optional::value on an empty optional *)

Inductive Outcome (A : Type) : Type :=
  | Returned (a : A)
  | Thrown (e : Exception).
Arguments Returned {A} a.
Arguments Thrown {A} e.

Definition bind {A B} (m : Outcome A) (k : A -> Outcome B) : Outcome B :=
  match m with
  | Returned a => k a
  | Thrown e => Thrown e
  end.

Notation "x <- m ;; k" := (bind m (fun x => k))
  (at level 61, m at next level, right associativity).

(** [std::optional<T>::value()] *)
Definition value {A} (o : option A) : Outcome A :=
  match o with
  | Some a => Returned a
  | None => Thrown bad_optional_access
  end.

(** [tl::expected<T, E>] *)
Inductive expected (T E : Type) : Type :=
  | Expected (v : T)
  | Unexpected (e : E).
Arguments Expected {T E} v.
Arguments Unexpected {T E} e.

(** ** Time *)

(** [google::protobuf::Timestamp]: [int64 seconds], [int32 nanos]. *)
Module Timestamp.
Record t : Type := mk { seconds : Z; nanos : Z }.
Definition default : t := mk 0 0.
End Timestamp.

(** [google::protobuf::Duration]: [int64 seconds], [int32 nanos]. *)
Module Duration.
Record t : Type := mk { seconds : Z; nanos : Z }.
Definition zero : t := mk 0 0.
End Duration.

Definition INT64_MIN : Z := - 2 ^ 63.
Definition INT64_MAX : Z := 2 ^ 63 - 1.
Definition NANOS_PER_SECOND : Z := 1000000000.

Definition in_int64 (z : Z) : Prop := INT64_MIN <= z <= INT64_MAX.

(** Saturating conversion of an exact result to a signed 64-bit value. *)
Definition sat64 (z : Z) : Z := Z.max INT64_MIN (Z.min INT64_MAX z).

Definition sat_add (a b : Z) : Z := sat64 (a + b).
Definition sat_neg (a : Z) : Z := sat64 (- a).

(** Modelled from the spec: the timestamp corrector [correct(raw, skew)].
    Its implementation, [spot_ros2::applyClockSkew], is declared in
    [time_sync_api.hpp] and defined outside the two files embedded here.
    Section 4.1:
    "adds skew to raw timestamp using saturating/wrapping-free 64-bit signed
    arithmetic over seconds+nanoseconds pairs, normalizing nanosecond
    overflow into seconds".  The nanosecond sum is split into a carry
    (floor division) and a remainder in [0, 10^9); the seconds are summed
    with saturating additions. *)
Definition correct (raw : Timestamp.t) (skew : Duration.t) : Timestamp.t :=
  let n := Timestamp.nanos raw + Duration.nanos skew in
  let s := sat_add (Timestamp.seconds raw) (Duration.seconds skew) in
  Timestamp.mk (sat_add s (n / NANOS_PER_SECOND)) (n mod NANOS_PER_SECOND).

(** The skew of opposite sign. *)
Definition negate (skew : Duration.t) : Duration.t :=
  Duration.mk (sat_neg (Duration.seconds skew)) (- Duration.nanos skew).

(** A timestamp in normal form: 64-bit seconds, nanoseconds in [0, 10^9). *)
Definition normalized (ts : Timestamp.t) : Prop :=
  in_int64 (Timestamp.seconds ts) /\
  0 <= Timestamp.nanos ts < NANOS_PER_SECOND.

(** Neither saturating addition of [correct raw skew] hits a bound. *)
Definition no_saturation (raw : Timestamp.t) (skew : Duration.t) : Prop :=
  in_int64 (Timestamp.seconds raw + Duration.seconds skew) /\
  in_int64 (Timestamp.seconds raw + Duration.seconds skew
            + (Timestamp.nanos raw + Duration.nanos skew) / NANOS_PER_SECOND).

(** ** ROS messages produced by the client *)

Module msg.
(** builtin_interfaces/Time *)
Record Time : Type := mkTime { sec : Z; nanosec : Z }.
(** builtin_interfaces/Duration: [int32 sec], [uint32 nanosec] *)
Record Duration : Type := mkDuration { dsec : Z; dnanosec : Z }.
(** std_msgs/Header (the fields the client touches) *)
Record Header : Type := mkHeader { stamp : Time; frame_id : string }.
Definition default_Time : Time := mkTime 0 0.
Definition default_Header : Header := mkHeader default_Time "".
Definition stamped (t : Time) : Header := mkHeader t "".

Record Vector3 : Type := mkVector3 { x : double; y : double; z : double }.
Record Point : Type := mkPoint { px : double; py : double; pz : double }.
Record Quaternion : Type :=
  mkQuaternion { qx : double; qy : double; qz : double; qw : double }.

Record Pose : Type := mkPose { position : Point; orientation : Quaternion }.
Record Twist : Type := mkTwist { linear : Vector3; angular : Vector3 }.
Record Transform : Type :=
  mkTransform { translation : Vector3; rotation : Quaternion }.

(** [float64[36] covariance]; value-initialised and never written. *)
Definition default_covariance : list double := repeat 0%float 36.

Record PoseWithCovariance : Type :=
  mkPoseWithCovariance { pose : Pose; pose_covariance : list double }.
Record TwistWithCovariance : Type :=
  mkTwistWithCovariance { twist : Twist; twist_covariance : list double }.

Record TwistWithCovarianceStamped : Type :=
  mkTwistWithCovarianceStamped
    { tw_header : Header; tw_twist : TwistWithCovariance }.

Record Odometry : Type :=
  mkOdometry { od_header : Header; od_child_frame_id : string;
               od_pose : PoseWithCovariance; od_twist : TwistWithCovariance }.

Record TransformStamped : Type :=
  mkTransformStamped { tf_header : Header; child_frame_id : string;
                       transform : Transform }.
Record TFMessage : Type := mkTFMessage { transforms : list TransformStamped }.

Record JointState : Type :=
  mkJointState { js_header : Header; name : list string;
                 js_position : list double; js_velocity : list double;
                 effort : list double }.

Record Vector3Stamped : Type :=
  mkVector3Stamped { v3_header : Header; vector : Vector3 }.

Record BatteryState : Type :=
  mkBatteryState { bat_header : Header; identifier : string;
                   charge_percentage : double; estimated_runtime : Duration;
                   current : double; voltage : double;
                   temperatures : list double; bat_status : Z }.
Record BatteryStateArray : Type :=
  mkBatteryStateArray { battery_states : list BatteryState }.

Record WiFiState : Type := mkWiFiState { current_mode : Z; essid : string }.

Record FootState : Type :=
  mkFootState { foot_position_rt_body : Point; contact : Z }.
Record FootStateArray : Type := mkFootStateArray { states : list FootState }.

Record EStopState : Type :=
  mkEStopState { es_header : Header; es_name : string; es_type : Z;
                 es_state : Z; state_description : string }.
Record EStopStateArray : Type :=
  mkEStopStateArray { estop_states : list EStopState }.

Record PowerState : Type :=
  mkPowerState { ps_header : Header; motor_power_state : Z;
                 shore_power_state : Z;
                 locomotion_charge_percentage : double;
                 locomotion_estimated_runtime : Duration }.

Record SystemFault : Type :=
  mkSystemFault { sf_name : string; sf_header : Header;
                  sf_duration : Duration; code : Z; uid : Z;
                  error_message : string; attributes : list string;
                  severity : Z }.
Record SystemFaultState : Type :=
  mkSystemFaultState { faults : list SystemFault;
                       historical_faults : list SystemFault }.

Record ManipulatorState : Type :=
  mkManipulatorState
    { gripper_open_percentage : double;
      is_gripper_holding_item : bool;
      estimated_end_effector_force_in_hand : Vector3;
      estimated_end_effector_force_in_hand_is_set : bool;
      stow_state : Z;
      velocity_of_hand_in_vision : Twist;
      velocity_of_hand_in_vision_is_set : bool;
      velocity_of_hand_in_odom : Twist;
      velocity_of_hand_in_odom_is_set : bool;
      carry_state : Z }.

Record BehaviorFault : Type :=
  mkBehaviorFault { behavior_fault_id : Z; bf_header : Header;
                    cause : Z; bf_status : Z }.
Record BehaviorFaultState : Type :=
  mkBehaviorFaultState { bf_faults : list BehaviorFault }.
End msg.

(** Modelled from the spec: [spot_ros2::applyClockSkew], the call through
    which every output stamp is produced.  It is defined outside the two
    files embedded here; it is the corrector of Section 4.1 ([correct]
    above) stored into a [builtin_interfaces/Time]. *)
Definition applyClockSkew (timestamp : Timestamp.t) (clock_skew : Duration.t)
  : msg.Time :=
  let corrected := correct timestamp clock_skew in
  msg.mkTime (Timestamp.seconds corrected) (Timestamp.nanos corrected).

(** ** Robot API messages consumed by the client ([bosdyn::api]) *)

Module api.
Record Vec3 : Type := mkVec3 { x : double; y : double; z : double }.
Record Quaternion : Type :=
  mkQuaternion { qx : double; qy : double; qz : double; qw : double }.
Record SE3Pose : Type := mkSE3Pose { position : Vec3; rotation : Quaternion }.
Record SE3Velocity : Type := mkSE3Velocity { linear : Vec3; angular : Vec3 }.

Definition default_Vec3 : Vec3 := mkVec3 0%float 0%float 0%float.
Definition default_Quaternion : Quaternion :=
  mkQuaternion 0%float 0%float 0%float 0%float.
Definition default_SE3Pose : SE3Pose :=
  mkSE3Pose default_Vec3 default_Quaternion.
Definition default_SE3Velocity : SE3Velocity :=
  mkSE3Velocity default_Vec3 default_Vec3.

Record BatteryState : Type :=
  mkBatteryState { bat_timestamp : Timestamp.t; identifier : string;
                   charge_percentage : double;
                   estimated_runtime : Duration.t;
                   current : double; voltage : double;
                   temperatures : list double; bat_status : Z }.

Record WiFiState : Type := mkWiFiState { current_mode : Z; essid : string }.
Record CommsState : Type := mkCommsState { wifi_state : option WiFiState }.

Record FootState : Type :=
  mkFootState { foot_position_rt_body : Vec3; contact : Z }.

Record EStopState : Type :=
  mkEStopState { es_timestamp : Timestamp.t; es_name : string; es_type : Z;
                 es_state : Z; state_description : string }.

Record JointState : Type :=
  mkJointState { name : string; js_position : double;
                 js_velocity : double; load : double }.

Record ParentEdge : Type :=
  mkParentEdge { parent_frame_name : string; parent_tform_child : SE3Pose }.

(** [child_to_parent_edge_map]: a map keyed by child frame name, held as
    its entries in iteration order. *)
Record FrameTreeSnapshot : Type :=
  mkFrameTreeSnapshot
    { child_to_parent_edge_map : list (string * ParentEdge) }.
Definition default_FrameTreeSnapshot : FrameTreeSnapshot :=
  mkFrameTreeSnapshot [].

Record KinematicState : Type :=
  mkKinematicState { joint_states : list JointState;
                     acquisition_timestamp : Timestamp.t;
                     transforms_snapshot : FrameTreeSnapshot;
                     velocity_of_body_in_odom : SE3Velocity }.
Definition default_KinematicState : KinematicState :=
  mkKinematicState [] Timestamp.default default_FrameTreeSnapshot
                   default_SE3Velocity.

Record PowerState : Type :=
  mkPowerState { ps_timestamp : Timestamp.t; motor_power_state : Z;
                 shore_power_state : Z;
                 locomotion_charge_percentage : double;
                 locomotion_estimated_runtime : Duration.t }.

Record SystemFault : Type :=
  mkSystemFault { sf_name : string; sf_onset_timestamp : Timestamp.t;
                  sf_duration : Duration.t; code : Z; uid : Z;
                  error_message : string; attributes : list string;
                  severity : Z }.
Record SystemFaultState : Type :=
  mkSystemFaultState { faults : list SystemFault;
                       historical_faults : list SystemFault }.

Record ManipulatorState : Type :=
  mkManipulatorState
    { gripper_open_percentage : double;
      is_gripper_holding_item : bool;
      estimated_end_effector_force_in_hand : option Vec3;
      stow_state : Z;
      velocity_of_hand_in_vision : option SE3Velocity;
      velocity_of_hand_in_odom : option SE3Velocity;
      carry_state : Z }.

Record BehaviorFault : Type :=
  mkBehaviorFault { behavior_fault_id : Z; bf_onset_timestamp : Timestamp.t;
                    cause : Z; bf_status : Z }.
Record BehaviorFaultState : Type :=
  mkBehaviorFaultState { bf_faults : list BehaviorFault }.

Record RobotState : Type :=
  mkRobotState { battery_states : list BatteryState;
                 comms_states : list CommsState;
                 foot_state : list FootState;
                 estop_states : list EStopState;
                 kinematic_state : option KinematicState;
                 power_state : option PowerState;
                 system_fault_state : option SystemFaultState;
                 manipulator_state : option ManipulatorState;
                 behavior_fault_state : option BehaviorFaultState }.

Definition default_RobotState : RobotState :=
  mkRobotState [] [] [] [] None None None None None.

Definition has_kinematic_state (rs : RobotState) : bool :=
  match kinematic_state rs with Some _ => true | None => false end.
Definition has_power_state (rs : RobotState) : bool :=
  match power_state rs with Some _ => true | None => false end.
Definition has_system_fault_state (rs : RobotState) : bool :=
  match system_fault_state rs with Some _ => true | None => false end.
Definition has_manipulator_state (rs : RobotState) : bool :=
  match manipulator_state rs with Some _ => true | None => false end.
Definition has_behavior_fault_state (rs : RobotState) : bool :=
  match behavior_fault_state rs with Some _ => true | None => false end.

(** The accessor [kinematic_state()]: the default instance when unset. *)
Definition kinematic_state_or_default (rs : RobotState) : KinematicState :=
  match kinematic_state rs with Some ks => ks | None => default_KinematicState end.
End api.

(** ** The SDK's frame helpers ([bosdyn/math/frame_helpers.h], [proto_math.h])

    External library code.  [se3_inverse] is [operator~] on [SE3Pose].
    The two lookups take the frame tree and an out-parameter; they are
    given the value the out-parameter holds before the call and yield the
    [bool] they return together with the value it holds afterwards.  All
    three are taken to return normally. *)
Record FrameHelpers : Type :=
  mkFrameHelpers
    { se3_inverse : api.SE3Pose -> api.SE3Pose;
      GetWorldTformBody : api.FrameTreeSnapshot -> api.SE3Pose -> bool * api.SE3Pose;
      GetOdomTformBody : api.FrameTreeSnapshot -> api.SE3Pose -> bool * api.SE3Pose }.

(** ** default_robot_state_client.cpp: the conversion functions *)

(** A range-based [for] loop over a repeated field, threading the message
    under construction. *)
Definition for_each {A S : Type} (xs : list A) (init : S) (body : S -> A -> S) : S :=
  fold_left body xs init.

(** [std::vector::push_back] *)
Definition push_back {A : Type} (v : list A) (x : A) : list A := (v ++ [x])%list.

Definition kFriendlyJointNames : list (string * string) :=
  [ ("fl.hx", "front_left_hip_x");  ("fl.hy", "front_left_hip_y");  ("fl.kn", "front_left_knee");
    ("fr.hx", "front_right_hip_x"); ("fr.hy", "front_right_hip_y"); ("fr.kn", "front_right_knee");
    ("hl.hx", "rear_left_hip_x");   ("hl.hy", "rear_left_hip_y");   ("hl.kn", "rear_left_knee");
    ("hr.hx", "rear_right_hip_x");  ("hr.hy", "rear_right_hip_y");  ("hr.kn", "rear_right_knee");
    ("arm0.sh0", "arm_sh0");        ("arm0.sh1", "arm_sh1");        ("arm0.hr0", "arm_hr0");
    ("arm0.el0", "arm_el0");        ("arm0.el1", "arm_el1");        ("arm0.wr0", "arm_wr0");
    ("arm0.wr1", "arm_wr1");        ("arm0.f1x", "arm_f1x") ].

(** Key lookup in a [std::map<string, string>]. *)
Fixpoint find (m : list (string * string)) (key : string) : option string :=
  match m with
  | [] => None
  | (k, v) :: m' => if String.eqb key k then Some v else find m' key
  end.

(** [std::map::at]: throws [std::out_of_range] on a missing key. *)
Definition at_ (m : list (string * string)) (key : string) : Outcome string :=
  match find m key with
  | Some v => Returned v
  | None => Thrown out_of_range
  end.

(** Conversion of an integer to [int32_t] and to [uint32_t]: the value
    modulo 2^32, in the range of the target type. *)
Definition wrap_int32 (z : Z) : Z := (z + 2 ^ 31) mod 2 ^ 32 - 2 ^ 31.
Definition wrap_uint32 (z : Z) : Z := z mod 2 ^ 32.

(** [builtin_interfaces::build<builtin_interfaces::msg::Duration>()
      .sec(d.seconds()).nanosec(d.nanos())]:
    the message has [int32 sec] and [uint32 nanosec], so the [int64]
    seconds and the [int32] nanos of the protobuf duration are converted
    on the way in. *)
Definition toDuration (d : Duration.t) : msg.Duration :=
  msg.mkDuration (wrap_int32 (Duration.seconds d)) (wrap_uint32 (Duration.nanos d)).

Definition GetBatteryStates (robot_state : api.RobotState) (clock_skew : Duration.t)
  : msg.BatteryStateArray :=
  for_each (api.battery_states robot_state) (msg.mkBatteryStateArray [])
    (fun battery_states battery =>
       let battery_state :=
         msg.mkBatteryState
           (msg.stamped (applyClockSkew (api.bat_timestamp battery) clock_skew))
           (api.identifier battery)
           (api.charge_percentage battery)
           (toDuration (api.estimated_runtime battery))
           (api.current battery)
           (api.voltage battery)
           (for_each (api.temperatures battery) [] push_back)
           (api.bat_status battery) in
       msg.mkBatteryStateArray (push_back (msg.battery_states battery_states) battery_state)).

Definition GetWifiState (robot_state : api.RobotState) : msg.WiFiState :=
  for_each (api.comms_states robot_state) (msg.mkWiFiState 0 "")
    (fun wifi_state comm_state =>
       match api.wifi_state comm_state with
       | Some ws => msg.mkWiFiState (api.current_mode ws) (api.essid ws)
       | None => wifi_state
       end).

Definition GetFootState (robot_state : api.RobotState) : msg.FootStateArray :=
  for_each (api.foot_state robot_state) (msg.mkFootStateArray [])
    (fun foot_states foot =>
       let foot_state :=
         msg.mkFootState
           (msg.mkPoint (api.x (api.foot_position_rt_body foot))
                        (api.y (api.foot_position_rt_body foot))
                        (api.z (api.foot_position_rt_body foot)))
           (api.contact foot) in
       msg.mkFootStateArray (push_back (msg.states foot_states) foot_state)).

Definition GetEstopStates (robot_state : api.RobotState) (clock_skew : Duration.t)
  : msg.EStopStateArray :=
  for_each (api.estop_states robot_state) (msg.mkEStopStateArray [])
    (fun estop_states estop =>
       let estop_state :=
         msg.mkEStopState
           (msg.stamped (applyClockSkew (api.es_timestamp estop) clock_skew))
           (api.es_name estop) (api.es_type estop) (api.es_state estop)
           (api.state_description estop) in
       msg.mkEStopStateArray (push_back (msg.estop_states estop_states) estop_state)).

(** The body of the joint loop: one [push_back] on each of the four arrays,
    after the friendly-name lookup, which may throw. *)
Fixpoint joint_loop (prefix : string) (joints : list api.JointState)
                    (joint_states : msg.JointState) : Outcome msg.JointState :=
  match joints with
  | [] => Returned joint_states
  | joint :: rest =>
      friendly <- at_ kFriendlyJointNames (api.name joint) ;;
      let joint_name := prefix ++ friendly in
      joint_loop prefix rest
        (msg.mkJointState
           (msg.js_header joint_states)
           (push_back (msg.name joint_states) joint_name)
           (push_back (msg.js_position joint_states) (api.js_position joint))
           (push_back (msg.js_velocity joint_states) (api.js_velocity joint))
           (push_back (msg.effort joint_states) (api.load joint)))
  end.

Definition GetJointStates (robot_state : api.RobotState) (clock_skew : Duration.t)
                          (prefix : string) : Outcome (option msg.JointState) :=
  match api.kinematic_state robot_state with
  | Some ks =>
      let joint_states :=
        msg.mkJointState
          (msg.stamped (applyClockSkew (api.acquisition_timestamp ks) clock_skew))
          [] [] [] [] in
      joint_states <- joint_loop prefix (api.joint_states ks) joint_states ;;
      Returned (Some joint_states)
  | None => Returned None
  end.

(** Modelled from the spec: the pose conversion inside
    [spot_ros2::conversions::toTransformStamped] (below): the stored
    transform value, component by component. *)
Definition toTransform (transform : api.SE3Pose) : msg.Transform :=
  msg.mkTransform
    (msg.mkVector3 (api.x (api.position transform))
                   (api.y (api.position transform))
                   (api.z (api.position transform)))
    (msg.mkQuaternion (api.qx (api.rotation transform))
                      (api.qy (api.rotation transform))
                      (api.qz (api.rotation transform))
                      (api.qw (api.rotation transform))).

(** Modelled from the spec: [spot_ros2::conversions::toTransformStamped]
    (declared in [conversions/geometry.hpp], defined outside the two files
    embedded here).  It builds one frame edge from a pose, two frame names and a
    stamp.  Section 4.2, rule 3 fixes the roles of its arguments: the
    pass-through call hands it [prefix + parent_frame_name] second and
    [prefix + child_frame_id] third, and the emitted edge has those as
    [parent_id] and [child_id].  On a [geometry_msgs/TransformStamped] the
    parent frame is [header.frame_id] and the child is [child_frame_id]. *)
Definition toTransformStamped (transform : api.SE3Pose)
                              (parent_frame child_frame : string)
                              (tf_time : msg.Time) : msg.TransformStamped :=
  msg.mkTransformStamped (msg.mkHeader tf_time parent_frame) child_frame
                         (toTransform transform).

(** The spec's names for the two ends of a frame edge. *)
Definition parent_id (edge : msg.TransformStamped) : string :=
  msg.frame_id (msg.tf_header edge).
Definition child_id (edge : msg.TransformStamped) : string :=
  msg.child_frame_id edge.

Section Conversions.

Variable sdk : FrameHelpers.

(** One iteration of the loop of [GetTf] over [child_to_parent_edge_map]. *)
Definition tf_entry (acquisition_timestamp : Timestamp.t) (clock_skew : Duration.t)
                    (prefix inverse_target_frame_id : string)
                    (entry : string * api.ParentEdge) : msg.TransformStamped :=
  let '(child_frame_id, transform) := entry in
  let local_time := applyClockSkew acquisition_timestamp clock_skew in
  if String.eqb inverse_target_frame_id (prefix ++ child_frame_id) then
    let inversed_tf := se3_inverse sdk (api.parent_tform_child transform) in
    toTransformStamped inversed_tf (prefix ++ child_frame_id)
                       (prefix ++ api.parent_frame_name transform) local_time
  else
    toTransformStamped (api.parent_tform_child transform)
                       (prefix ++ api.parent_frame_name transform)
                       (prefix ++ child_frame_id) local_time.

Definition GetTf (robot_state : api.RobotState) (clock_skew : Duration.t)
                 (prefix inverse_target_frame_id : string) : option msg.TFMessage :=
  match api.kinematic_state robot_state with
  | Some ks =>
      Some (for_each
              (api.child_to_parent_edge_map (api.transforms_snapshot ks))
              (msg.mkTFMessage [])
              (fun tf_msg entry =>
                 msg.mkTFMessage
                   (push_back (msg.transforms tf_msg)
                      (tf_entry (api.acquisition_timestamp ks) clock_skew
                                prefix inverse_target_frame_id entry))))
  | None => None
  end.

Definition GetOdomTwist (robot_state : api.RobotState) (clock_skew : Duration.t)
  : option msg.TwistWithCovarianceStamped :=
  match api.kinematic_state robot_state with
  | Some ks =>
      let v := api.velocity_of_body_in_odom ks in
      Some (msg.mkTwistWithCovarianceStamped
              (msg.stamped (applyClockSkew (api.acquisition_timestamp ks) clock_skew))
              (msg.mkTwistWithCovariance
                 (msg.mkTwist
                    (msg.mkVector3 (api.x (api.linear v))
                                   (api.y (api.linear v))
                                   (api.z (api.linear v)))
                    (msg.mkVector3 (api.x (api.linear v))
                                   (api.y (api.angular v))
                                   (api.z (api.angular v))))
                 msg.default_covariance))
  | None => None
  end.

Definition GetOdom (robot_state : api.RobotState) (clock_skew : Duration.t)
                   (prefix : string) (is_using_vision : bool)
  : Outcome (option msg.Odometry) :=
  match api.kinematic_state robot_state with
  | Some ks =>
      let stamp := applyClockSkew (api.acquisition_timestamp ks) clock_skew in
      let '(frame_id, tf_body_pose) :=
        if is_using_vision then
          (prefix ++ "vision",
           snd (GetWorldTformBody sdk (api.transforms_snapshot ks) api.default_SE3Pose))
        else
          (prefix ++ "odom",
           snd (GetOdomTformBody sdk (api.transforms_snapshot ks) api.default_SE3Pose)) in
      let child_frame_id := prefix ++ "body" in
      let pose_odom_msg :=
        msg.mkPoseWithCovariance
          (msg.mkPose
             (msg.mkPoint (api.x (api.position tf_body_pose))
                          (api.y (api.position tf_body_pose))
                          (api.z (api.position tf_body_pose)))
             (msg.mkQuaternion (api.qx (api.rotation tf_body_pose))
                               (api.qy (api.rotation tf_body_pose))
                               (api.qz (api.rotation tf_body_pose))
                               (api.qw (api.rotation tf_body_pose))))
          msg.default_covariance in
      odom_twist <- value (GetOdomTwist robot_state clock_skew) ;;
      Returned (Some (msg.mkOdometry (msg.mkHeader stamp frame_id) child_frame_id
                                     pose_odom_msg (msg.tw_twist odom_twist)))
  | None => Returned None
  end.

End Conversions.

Definition GetPowerState (robot_state : api.RobotState) (clock_skew : Duration.t)
  : option msg.PowerState :=
  match api.power_state robot_state with
  | Some ps =>
      Some (msg.mkPowerState
              (msg.stamped (applyClockSkew (api.ps_timestamp ps) clock_skew))
              (api.motor_power_state ps)
              (api.shore_power_state ps)
              (api.locomotion_charge_percentage ps)
              (toDuration (api.locomotion_estimated_runtime ps)))
  | None => None
  end.

(** The lambda [create_fault_message] of [GetSystemFaultState]. *)
Definition create_fault_message (clock_skew : Duration.t) (fault : api.SystemFault)
  : msg.SystemFault :=
  msg.mkSystemFault
    (api.sf_name fault)
    (msg.stamped (applyClockSkew (api.sf_onset_timestamp fault) clock_skew))
    (toDuration (api.sf_duration fault))
    (api.code fault)
    (api.uid fault)
    (api.error_message fault)
    (for_each (api.attributes fault) [] push_back)
    (api.severity fault).

Definition GetSystemFaultState (robot_state : api.RobotState) (clock_skew : Duration.t)
  : option msg.SystemFaultState :=
  match api.system_fault_state robot_state with
  | Some sfs =>
      let with_faults :=
        for_each (api.faults sfs) (msg.mkSystemFaultState [] [])
          (fun system_fault_state fault =>
             msg.mkSystemFaultState
               (push_back (msg.faults system_fault_state)
                          (create_fault_message clock_skew fault))
               (msg.historical_faults system_fault_state)) in
      Some (for_each (api.historical_faults sfs) with_faults
              (fun system_fault_state fault =>
                 msg.mkSystemFaultState
                   (msg.faults system_fault_state)
                   (push_back (msg.historical_faults system_fault_state)
                              (create_fault_message clock_skew fault))))
  | None => None
  end.

Definition has {A : Type} (o : option A) : bool :=
  match o with Some _ => true | None => false end.

Definition toVector3 (o : option api.Vec3) : msg.Vector3 :=
  let v := match o with Some v => v | None => api.default_Vec3 end in
  msg.mkVector3 (api.x v) (api.y v) (api.z v).

Definition toTwist (o : option api.SE3Velocity) : msg.Twist :=
  let v := match o with Some v => v | None => api.default_SE3Velocity end in
  msg.mkTwist
    (msg.mkVector3 (api.x (api.linear v)) (api.y (api.linear v)) (api.z (api.linear v)))
    (msg.mkVector3 (api.x (api.angular v)) (api.y (api.angular v)) (api.z (api.angular v))).

Definition GetManipulatorState (robot_state : api.RobotState)
  : option msg.ManipulatorState :=
  match api.manipulator_state robot_state with
  | Some ms =>
      Some (msg.mkManipulatorState
              (api.gripper_open_percentage ms)
              (api.is_gripper_holding_item ms)
              (toVector3 (api.estimated_end_effector_force_in_hand ms))
              (has (api.estimated_end_effector_force_in_hand ms))
              (api.stow_state ms)
              (toTwist (api.velocity_of_hand_in_vision ms))
              (has (api.velocity_of_hand_in_vision ms))
              (toTwist (api.velocity_of_hand_in_odom ms))
              (has (api.velocity_of_hand_in_odom ms))
              (api.carry_state ms))
  | None => None
  end.

Definition GetEndEffectorForce (robot_state : api.RobotState) (clock_skew : Duration.t)
                               (prefix : string) : option msg.Vector3Stamped :=
  match api.manipulator_state robot_state with
  | Some ms =>
      Some (msg.mkVector3Stamped
              (msg.mkHeader
                 (applyClockSkew
                    (api.acquisition_timestamp (api.kinematic_state_or_default robot_state))
                    clock_skew)
                 (prefix ++ "hand"))
              (toVector3 (api.estimated_end_effector_force_in_hand ms)))
  | None => None
  end.

Definition GetBehaviorFaultState (robot_state : api.RobotState) (clock_skew : Duration.t)
  : option msg.BehaviorFaultState :=
  match api.behavior_fault_state robot_state with
  | Some bfs =>
      Some (for_each (api.bf_faults bfs) (msg.mkBehaviorFaultState [])
              (fun behavior_fault_msgs fault =>
                 let fault_msg :=
                   msg.mkBehaviorFault
                     (api.behavior_fault_id fault)
                     (msg.stamped (applyClockSkew (api.bf_onset_timestamp fault) clock_skew))
                     (api.cause fault)
                     (api.bf_status fault) in
                 msg.mkBehaviorFaultState
                   (push_back (msg.bf_faults behavior_fault_msgs) fault_msg)))
  | None => None
  end.

(** ** The clients *)

(** Modelled from the spec: [spot_ros2::RobotState], the aggregated state
    of Section 3 ("a plain value composed of independently-optional
    sub-results").  The struct is declared in the client's header; its
    members are taken, in order, from the braced initialiser in
    [getRobotState]. *)
Record RobotState : Type :=
  mkRobotState
    { battery_states : msg.BatteryStateArray;
      wifi_state : msg.WiFiState;
      foot_state : msg.FootStateArray;
      estop_states : msg.EStopStateArray;
      maybe_joint_states : option msg.JointState;
      maybe_tf : option msg.TFMessage;
      maybe_odom_twist : option msg.TwistWithCovarianceStamped;
      maybe_odom : option msg.Odometry;
      maybe_power_state : option msg.PowerState;
      maybe_system_fault_state : option msg.SystemFaultState;
      maybe_manipulator_state : option msg.ManipulatorState;
      maybe_end_effector_force : option msg.Vector3Stamped;
      maybe_behavior_fault_state : option msg.BehaviorFaultState }.

(** [::bosdyn::common::Status]: its truth value and its [DebugString()]. *)
Record Status : Type := mkStatus { ok : bool; DebugString : string }.

Record RobotStateResponse : Type :=
  mkRobotStateResponse { robot_state : option api.RobotState }.

Definition has_robot_state (r : RobotStateResponse) : bool := has (robot_state r).

(** The accessor [robot_state()]: the default instance when unset. *)
Definition robot_state_or_default (r : RobotStateResponse) : api.RobotState :=
  match robot_state r with Some rs => rs | None => api.default_RobotState end.

(** [::bosdyn::client::RobotStateResultType] *)
Record RobotStateResultType : Type :=
  mkRobotStateResultType { status : Status; response : RobotStateResponse }.

(** The two collaborators.  Each is an object whose answer may change from
    one call to the next: it is given as the answer to its n-th call. *)
Record RobotStateClient : Type :=
  mkRobotStateClient { GetRobotStateAsync : nat -> RobotStateResultType }.

Record TimeSyncApi : Type :=
  mkTimeSyncApi { getClockSkew : nat -> expected Duration.t string }.

(** How many calls each collaborator has received so far. *)
Record Calls : Type := mkCalls { state_requests : nat; skew_lookups : nat }.

Module DefaultStateClient.
(** default_state_client.cpp *)
Record t : Type := mk { client_ : RobotStateClient }.

Definition DefaultStateClient (client : RobotStateClient) : t := mk client.

Definition getRobotState (self : t) (calls : Calls)
  : expected api.RobotState string * Calls :=
  let get_robot_state_result :=
    GetRobotStateAsync (client_ self) (state_requests calls) in
  let calls := mkCalls (S (state_requests calls)) (skew_lookups calls) in
  if negb (ok (status get_robot_state_result))
     || negb (has_robot_state (response get_robot_state_result))
  then
    (Unexpected ("Failed to get robot state: "
                 ++ DebugString (status get_robot_state_result)), calls)
  else
    (Expected (robot_state_or_default (response get_robot_state_result)), calls).
End DefaultStateClient.

Module DefaultRobotStateClient.
(** default_robot_state_client.cpp *)
Record t : Type :=
  mk { client_ : RobotStateClient;
       time_sync_api_ : TimeSyncApi;
       frame_prefix_ : string }.

Definition DefaultRobotStateClient (client : RobotStateClient)
                                   (time_sync_api : TimeSyncApi)
                                   (robot_name : string) : t :=
  mk client time_sync_api
     (if String.eqb robot_name "" then "" else robot_name ++ "/").

Section Client.
Variable sdk : FrameHelpers.

(** The braced initialiser of [getRobotState]: its thirteen members, in
    order. *)
Definition assemble (robot_state : api.RobotState) (clock_skew : Duration.t)
  : Outcome RobotState :=
  let battery_states := GetBatteryStates robot_state clock_skew in
  let wifi_state := GetWifiState robot_state in
  let foot_state := GetFootState robot_state in
  let estop_states := GetEstopStates robot_state clock_skew in
  joint_states <- GetJointStates robot_state clock_skew "Opal/" ;;
  let tf := GetTf sdk robot_state clock_skew "Opal/" "body" in
  let odom_twist := GetOdomTwist robot_state clock_skew in
  odom <- GetOdom sdk robot_state clock_skew "Opal/" true ;;
  Returned
    (mkRobotState battery_states wifi_state foot_state estop_states
                  joint_states tf odom_twist odom
                  (GetPowerState robot_state clock_skew)
                  (GetSystemFaultState robot_state clock_skew)
                  (GetManipulatorState robot_state)
                  (GetEndEffectorForce robot_state clock_skew "Opal/")
                  (GetBehaviorFaultState robot_state clock_skew)).

Definition getRobotState (self : t) (calls : Calls)
  : Outcome (expected RobotState string) * Calls :=
  let get_robot_state_result :=
    GetRobotStateAsync (client_ self) (state_requests calls) in
  let calls := mkCalls (S (state_requests calls)) (skew_lookups calls) in
  if negb (ok (status get_robot_state_result))
     || negb (has_robot_state (response get_robot_state_result))
  then
    (Returned (Unexpected ("Failed to get robot state: "
                           ++ DebugString (status get_robot_state_result))),
     calls)
  else
    let clock_skew_result :=
      getClockSkew (time_sync_api_ self) (skew_lookups calls) in
    let calls := mkCalls (state_requests calls) (S (skew_lookups calls)) in
    match clock_skew_result with
    | Unexpected error =>
        (Returned (Unexpected ("Failed to get latest clock skew: " ++ error)),
         calls)
    | Expected clock_skew =>
        let robot_state :=
          robot_state_or_default (response get_robot_state_result) in
        (out <- assemble robot_state clock_skew ;; Returned (Expected out),
         calls)
    end.
End Client.
End DefaultRobotStateClient.

(** * Vocabulary of the properties *)

(** ** Frame edges *)

(** The edge emitted for a map entry that takes the pass-through branch. *)
Definition pass_through (acquisition_timestamp : Timestamp.t) (skew : Duration.t)
                        (prefix : string) (entry : string * api.ParentEdge)
  : msg.TransformStamped :=
  toTransformStamped (api.parent_tform_child (snd entry))
                     (prefix ++ api.parent_frame_name (snd entry))
                     (prefix ++ fst entry)
                     (applyClockSkew acquisition_timestamp skew).

(** A robot state that carries only a kinematic state. *)
Definition kinematic_only (ks : api.KinematicState) : api.RobotState :=
  api.mkRobotState [] [] [] [] (Some ks) None None None None.

(** A kinematic state whose frame tree is the single edge
    [child] -> ([parent], [T]). *)
Definition single_edge (child parent : string) (T : api.SE3Pose)
                       (acquisition_timestamp : Timestamp.t) : api.KinematicState :=
  api.mkKinematicState []
    acquisition_timestamp
    (api.mkFrameTreeSnapshot [(child, api.mkParentEdge parent T)])
    api.default_SE3Velocity.

Definition sample_pose : api.SE3Pose :=
  api.mkSE3Pose (api.mkVec3 1%float 2%float 3%float)
                (api.mkQuaternion 0%float 0%float 0%float 1%float).

(** ** Odometry *)

Definition toPose (p : api.SE3Pose) : msg.Pose :=
  msg.mkPose
    (msg.mkPoint (api.x (api.position p)) (api.y (api.position p)) (api.z (api.position p)))
    (msg.mkQuaternion (api.qx (api.rotation p)) (api.qy (api.rotation p))
                      (api.qz (api.rotation p)) (api.qw (api.rotation p))).

(** The SDK lookup [GetOdom] calls for a reference-frame choice, and the
    frame it names. *)
Definition body_pose_lookup (sdk : FrameHelpers) (is_using_vision : bool)
  : api.FrameTreeSnapshot -> api.SE3Pose -> bool * api.SE3Pose :=
  if is_using_vision then GetWorldTformBody sdk else GetOdomTformBody sdk.

Definition reference_frame (is_using_vision : bool) : string :=
  if is_using_vision then "vision" else "odom".

(** The twist [GetOdomTwist] builds from a body velocity, member by member
    as lines 150-155 assign it (the angular x is read from [linear().x()]). *)
Definition twist_of (v : api.SE3Velocity) : msg.TwistWithCovariance :=
  msg.mkTwistWithCovariance
    (msg.mkTwist
       (msg.mkVector3 (api.x (api.linear v)) (api.y (api.linear v)) (api.z (api.linear v)))
       (msg.mkVector3 (api.x (api.linear v)) (api.y (api.angular v)) (api.z (api.angular v))))
    msg.default_covariance.

(** ** Transform paths in a frame tree *)

(** [child] is attached to [parent] by an entry of the edge map. *)
Definition edge_of (g : api.FrameTreeSnapshot) (child parent : string) : Prop :=
  exists e, In (child, e) (api.child_to_parent_edge_map g) /\
            api.parent_frame_name e = parent.

(** A transform path: a chain of edges, each usable in either direction. *)
Definition transform_path (g : api.FrameTreeSnapshot) : string -> string -> Prop :=
  clos_refl_sym_trans string (edge_of g).

(** A frame tree in which "odom" hangs below "vision" and nothing joins the
    body frame to either. *)
Definition detached_body_tree : api.FrameTreeSnapshot :=
  api.mkFrameTreeSnapshot [("odom", api.mkParentEdge "vision" sample_pose)].

Definition detached_body_state : api.RobotState :=
  kinematic_only
    (api.mkKinematicState [] (Timestamp.mk 100 0) detached_body_tree
                          api.default_SE3Velocity).

(** ** Sample snapshots *)

Definition sample_velocity : api.SE3Velocity :=
  api.mkSE3Velocity (api.mkVec3 1%float 2%float 3%float)
                    (api.mkVec3 4%float 5%float 6%float).

Definition moving_body_state : api.RobotState :=
  kinematic_only
    (api.mkKinematicState [] (Timestamp.mk 100 0) api.default_FrameTreeSnapshot
                          sample_velocity).

(** ** Joint names *)

(** The friendly name of a raw joint name, or the empty string. *)
Definition friendly (raw : string) : string :=
  match find kFriendlyJointNames raw with Some f => f | None => "" end.

(** The output name of a joint. *)
Definition joint_name (prefix : string) (j : api.JointState) : string :=
  prefix ++ friendly (api.name j).

Definition front_left_hip : api.KinematicState :=
  api.mkKinematicState
    [api.mkJointState "fl.hx" 0.25%float 0.5%float 1.5%float]
    (Timestamp.mk 100 0) api.default_FrameTreeSnapshot api.default_SE3Velocity.

(** ** The stamps of an aggregated state and the raw timestamps they come from *)

Definition opt_list {A B : Type} (f : A -> list B) (o : option A) : list B :=
  match o with Some a => f a | None => [] end.

(** The stamps of the sub-results derived from the kinematic snapshot's
    acquisition timestamp: joint state, frame edges, twist, odometry and
    end-effector force. *)
Definition kinematic_stamps (out : RobotState) : list msg.Time :=
  (opt_list (fun j => [msg.stamp (msg.js_header j)]) (maybe_joint_states out)
   ++ opt_list (fun t => map (fun e => msg.stamp (msg.tf_header e)) (msg.transforms t))
               (maybe_tf out)
   ++ opt_list (fun t => [msg.stamp (msg.tw_header t)]) (maybe_odom_twist out)
   ++ opt_list (fun o => [msg.stamp (msg.od_header o)]) (maybe_odom out)
   ++ opt_list (fun f => [msg.stamp (msg.v3_header f)]) (maybe_end_effector_force out))%list.

(** Every stamp of an aggregated state. *)
Definition stamps (out : RobotState) : list msg.Time :=
  (map (fun b => msg.stamp (msg.bat_header b)) (msg.battery_states (battery_states out))
   ++ map (fun e => msg.stamp (msg.es_header e)) (msg.estop_states (estop_states out))
   ++ kinematic_stamps out
   ++ opt_list (fun p => [msg.stamp (msg.ps_header p)]) (maybe_power_state out)
   ++ opt_list (fun s => map (fun f => msg.stamp (msg.sf_header f)) (msg.faults s)
                         ++ map (fun f => msg.stamp (msg.sf_header f))
                                (msg.historical_faults s))
               (maybe_system_fault_state out)
   ++ opt_list (fun b => map (fun f => msg.stamp (msg.bf_header f)) (msg.bf_faults b))
               (maybe_behavior_fault_state out))%list.

(** The raw timestamps read for the kinematic sub-results, in the order of
    [kinematic_stamps]. *)
Definition raw_kinematic_stamps (rs : api.RobotState) : list Timestamp.t :=
  (opt_list (fun ks =>
               [api.acquisition_timestamp ks]
               ++ map (fun _ => api.acquisition_timestamp ks)
                      (api.child_to_parent_edge_map (api.transforms_snapshot ks))
               ++ [api.acquisition_timestamp ks; api.acquisition_timestamp ks])
            (api.kinematic_state rs)
   ++ opt_list (fun _ => [api.acquisition_timestamp (api.kinematic_state_or_default rs)])
               (api.manipulator_state rs))%list.

(** Every raw timestamp of a robot state that the client corrects, in the
    order of [stamps]. *)
Definition raw_stamps (rs : api.RobotState) : list Timestamp.t :=
  (map api.bat_timestamp (api.battery_states rs)
   ++ map api.es_timestamp (api.estop_states rs)
   ++ raw_kinematic_stamps rs
   ++ opt_list (fun p => [api.ps_timestamp p]) (api.power_state rs)
   ++ opt_list (fun s => map api.sf_onset_timestamp (api.faults s)
                         ++ map api.sf_onset_timestamp (api.historical_faults s))
               (api.system_fault_state rs)
   ++ opt_list (fun b => map api.bf_onset_timestamp (api.bf_faults b))
               (api.behavior_fault_state rs))%list.

(** ** What [getRobotState] computes *)

(** Every joint of the kinematic state (if any) has a friendly name. *)
Definition all_joints_known (rs : api.RobotState) : bool :=
  forallb (fun j => has (find kFriendlyJointNames (api.name j)))
          (api.joint_states (api.kinematic_state_or_default rs)).

Definition joint_states_of (skew : Duration.t) (prefix : string)
                           (ks : api.KinematicState) : msg.JointState :=
  msg.mkJointState
    (msg.stamped (applyClockSkew (api.acquisition_timestamp ks) skew))
    (map (joint_name prefix) (api.joint_states ks))
    (map api.js_position (api.joint_states ks))
    (map api.js_velocity (api.joint_states ks))
    (map api.load (api.joint_states ks)).

Definition odometry_of (sdk : FrameHelpers) (skew : Duration.t) (prefix : string)
                       (is_using_vision : bool) (ks : api.KinematicState)
  : msg.Odometry :=
  msg.mkOdometry
    (msg.mkHeader (applyClockSkew (api.acquisition_timestamp ks) skew)
                  (prefix ++ reference_frame is_using_vision))
    (prefix ++ "body")
    (msg.mkPoseWithCovariance
       (toPose (snd (body_pose_lookup sdk is_using_vision
                       (api.transforms_snapshot ks) api.default_SE3Pose)))
       msg.default_covariance)
    (twist_of (api.velocity_of_body_in_odom ks)).

(** The state the braced initialiser builds when no joint lookup throws. *)
Definition aggregated (sdk : FrameHelpers) (rs : api.RobotState) (skew : Duration.t)
  : RobotState :=
  mkRobotState
    (GetBatteryStates rs skew)
    (GetWifiState rs)
    (GetFootState rs)
    (GetEstopStates rs skew)
    (option_map (joint_states_of skew "Opal/") (api.kinematic_state rs))
    (GetTf sdk rs skew "Opal/" "body")
    (GetOdomTwist rs skew)
    (option_map (odometry_of sdk skew "Opal/" true) (api.kinematic_state rs))
    (GetPowerState rs skew)
    (GetSystemFaultState rs skew)
    (GetManipulatorState rs)
    (GetEndEffectorForce rs skew "Opal/")
    (GetBehaviorFaultState rs skew).

(** Which optional members of the result are present. *)
Definition presence_matches (rs : api.RobotState) (out : RobotState) : Prop :=
  has (maybe_joint_states out) = api.has_kinematic_state rs /\
  has (maybe_tf out) = api.has_kinematic_state rs /\
  has (maybe_odom_twist out) = api.has_kinematic_state rs /\
  has (maybe_odom out) = api.has_kinematic_state rs /\
  has (maybe_power_state out) = api.has_power_state rs /\
  has (maybe_system_fault_state out) = api.has_system_fault_state rs /\
  has (maybe_manipulator_state out) = api.has_manipulator_state rs /\
  has (maybe_end_effector_force out) = api.has_manipulator_state rs /\
  has (maybe_behavior_fault_state out) = api.has_behavior_fault_state rs.

(** ** Sample collaborators *)

Definition answering (rs : api.RobotState) : RobotStateClient :=
  mkRobotStateClient
    (fun _ => mkRobotStateResultType (mkStatus true "OK")
                                     (mkRobotStateResponse (Some rs))).

Definition skewed_by (skew : Duration.t) : TimeSyncApi :=
  mkTimeSyncApi (fun _ => Expected skew).

(** A kinematic snapshot taken at 100 s: one known joint, one frame edge. *)
Definition opal_state : api.RobotState :=
  kinematic_only
    (api.mkKinematicState
       [api.mkJointState "fl.hx" 0.25%float 0.5%float 1.5%float]
       (Timestamp.mk 100 0)
       (api.mkFrameTreeSnapshot [("body", api.mkParentEdge "odom" sample_pose)])
       sample_velocity).

(** The same snapshot with a joint the table does not know. *)
Definition unknown_joint_state : api.RobotState :=
  kinematic_only
    (api.mkKinematicState
       [api.mkJointState "fl.hx" 0.25%float 0.5%float 1.5%float;
        api.mkJointState "tail.j0" 0%float 0%float 0%float]
       (Timestamp.mk 100 0) api.default_FrameTreeSnapshot api.default_SE3Velocity).

(** ** The robot name *)

(** Every frame and joint name of an aggregated state starts with "Opal/". *)
Definition opal_prefixed (out : RobotState) : Prop :=
  (forall js, maybe_joint_states out = Some js ->
     Forall (fun n => exists f, n = "Opal/" ++ f) (msg.name js)) /\
  (forall tf, maybe_tf out = Some tf ->
     Forall (fun e => (exists p, parent_id e = "Opal/" ++ p) /\
                      (exists c, child_id e = "Opal/" ++ c))
            (msg.transforms tf)) /\
  (forall od, maybe_odom out = Some od ->
     msg.frame_id (msg.od_header od) = "Opal/vision" /\
     msg.od_child_frame_id od = "Opal/body") /\
  (forall f, maybe_end_effector_force out = Some f ->
     msg.frame_id (msg.v3_header f) = "Opal/hand").

(** ** The field-copying conversions *)

(** The wifi state of the last comms entry that carries one. *)
Fixpoint last_wifi (comms : list api.CommsState) : option api.WiFiState :=
  match comms with
  | [] => None
  | comm :: rest =>
      match last_wifi rest with
      | Some ws => Some ws
      | None => api.wifi_state comm
      end
  end.

(** A robot state that carries only a manipulator state. *)
Definition manipulator_only (ms : api.ManipulatorState) : api.RobotState :=
  api.mkRobotState [] [] [] [] None None None (Some ms) None.

(** A gripper that reports no end-effector force and no hand velocity. *)
Definition silent_gripper : api.ManipulatorState :=
  api.mkManipulatorState 0.5%float false None 1 None None 2.

(** A fault state with one active and one historical fault. *)
Definition sample_faults : api.SystemFaultState :=
  api.mkSystemFaultState
    [api.mkSystemFault "battery" (Timestamp.mk 90 0) (Duration.mk 3 0) 7 11
                       "low" ["power"; "warn"] 2]
    [api.mkSystemFault "camera" (Timestamp.mk 10 0) (Duration.mk 1 0) 3 12
                       "lost" [] 1].

Definition faulty_state : api.RobotState :=
  api.mkRobotState [] [] [] [] None None (Some sample_faults) None None.

(** A kinematic snapshot with two known joints and a two-edge frame tree. *)
Definition front_hips : api.KinematicState :=
  api.mkKinematicState
    [api.mkJointState "fl.hx" 0.25%float 0.5%float 1.5%float;
     api.mkJointState "fr.hx" 0.75%float 0.5%float 1.5%float]
    (Timestamp.mk 100 0)
    (api.mkFrameTreeSnapshot
       [("body", api.mkParentEdge "odom" sample_pose);
        ("odom", api.mkParentEdge "vision" sample_pose)])
    sample_velocity.

(** A behavior fault state with two faults. *)
Definition sample_behavior_faults : api.BehaviorFaultState :=
  api.mkBehaviorFaultState
    [api.mkBehaviorFault 41 (Timestamp.mk 95 0) 1 2;
     api.mkBehaviorFault 42 (Timestamp.mk 96 0) 2 1].

Definition misbehaving_state : api.RobotState :=
  api.mkRobotState [] [] [] [] None None None None (Some sample_behavior_faults).

(** The snapshot [opal_state] (taken at 100 s) together with a battery
    whose own timestamp is 50 s. *)
Definition stale_battery_state : api.RobotState :=
  api.mkRobotState
    [api.mkBatteryState (Timestamp.mk 50 0) "a2302" 87.5%float (Duration.mk 3600 0)
                        1.5%float 58%float [30%float; 31%float] 3]
    [] [] []
    (api.kinematic_state opal_state)
    None None None None.

(** * Properties *)

(** ** Strings *)

(** [std::string::operator+] is [String.append]; [operator==] is [String.eqb]. *)

Lemma append_inj_l (p a b : string) : p ++ a = p ++ b -> a = b.
Proof.
  induction p as [|c p IH]; simpl; intro H.
  - exact H.
  - injection H as H. exact (IH H).
Qed.

(** ** TimestampCorrector: [correct] *)

Lemma sat64_id (z : Z) : in_int64 z -> sat64 z = z.
Proof. unfold in_int64, sat64. lia. Qed.

Lemma sat64_in_int64 (z : Z) : in_int64 (sat64 z).
Proof.
  unfold in_int64, sat64, INT64_MIN, INT64_MAX.
  change (2 ^ 63) with 9223372036854775808. lia.
Qed.

Lemma correct_exact (raw : Timestamp.t) (skew : Duration.t) :
  no_saturation raw skew ->
  correct raw skew =
  Timestamp.mk
    (Timestamp.seconds raw + Duration.seconds skew
     + (Timestamp.nanos raw + Duration.nanos skew) / NANOS_PER_SECOND)
    ((Timestamp.nanos raw + Duration.nanos skew) mod NANOS_PER_SECOND).
Proof.
  intros [H1 H2]. unfold correct, sat_add.
  rewrite (sat64_id _ H1), (sat64_id _ H2). reflexivity.
Qed.

Lemma correct_normalized (raw : Timestamp.t) (skew : Duration.t) :
  normalized (correct raw skew).
Proof.
  split; simpl.
  - apply sat64_in_int64.
  - apply Z.mod_pos_bound. reflexivity.
Qed.

Lemma correct_zero_skew (raw : Timestamp.t) :
  normalized raw -> correct raw Duration.zero = raw.
Proof.
  destruct raw as [s n]. intros [Hs Hn]. simpl in Hs, Hn.
  rewrite correct_exact.
  - simpl. rewrite !Z.add_0_r, Z.div_small, Z.mod_small, Z.add_0_r by exact Hn.
    reflexivity.
  - unfold no_saturation. simpl.
    rewrite !Z.add_0_r, Z.div_small, Z.add_0_r by exact Hn. split; exact Hs.
Qed.

Lemma correct_round_trip (raw : Timestamp.t) (skew : Duration.t) :
  normalized raw ->
  no_saturation raw skew ->
  in_int64 (- Duration.seconds skew) ->
  no_saturation (correct raw skew) (negate skew) ->
  correct (correct raw skew) (negate skew) = raw.
Proof.
  intros Hn Hsat Hneg Hsat'.
  rewrite (correct_exact _ _ Hsat'). rewrite (correct_exact _ _ Hsat).
  destruct raw as [s n], skew as [ds dn]. destruct Hn as [_ Hn].
  simpl in *. unfold sat_neg. rewrite (sat64_id _ Hneg).
  unfold NANOS_PER_SECOND in *.
  set (q := (n + dn) / 1000000000).
  assert (Hr : (n + dn) mod 1000000000 = n + dn - 1000000000 * q)
    by (unfold q; rewrite Z.mod_eq by lia; reflexivity).
  rewrite Hr.
  replace (n + dn - 1000000000 * q + - dn) with (n + (- q) * 1000000000) by lia.
  rewrite Z.div_add, Z.mod_add by lia.
  rewrite Z.div_small, Z.mod_small by exact Hn.
  f_equal. lia.
Qed.

(** C8, as amended: [correct] is a total function whose result is always in
    normal form; for every raw timestamp in normal form, correcting by the
    zero skew gives the raw timestamp back, and correcting by a skew and
    then by its negation gives the raw timestamp back whenever no 64-bit
    saturation occurs (in either correction or in negating the skew). *)
Theorem correct_zero_and_round_trip (raw : Timestamp.t) (skew : Duration.t) :
  normalized (correct raw skew) /\
  (normalized raw ->
   correct raw Duration.zero = raw /\
   (no_saturation raw skew ->
    in_int64 (- Duration.seconds skew) ->
    no_saturation (correct raw skew) (negate skew) ->
    correct (correct raw skew) (negate skew) = raw)).
Proof.
  split; [apply correct_normalized|]. intro Hn.
  split; [exact (correct_zero_skew raw Hn)|].
  exact (correct_round_trip raw skew Hn).
Qed.

Lemma in_int64_small (z : Z) : -1000000 <= z <= 1000000 -> in_int64 z.
Proof.
  unfold in_int64, INT64_MIN, INT64_MAX.
  change (2 ^ 63) with 9223372036854775808. lia.
Qed.

(** 100.6 s corrected by +5.7 s is 106.3 s, and back. *)
Lemma correct_zero_and_round_trip_witness :
  let raw := Timestamp.mk 100 600000000 in
  let skew := Duration.mk 5 700000000 in
  normalized raw /\
  correct raw skew = Timestamp.mk 106 300000000 /\
  correct raw Duration.zero = raw /\
  correct (correct raw skew) (negate skew) = raw.
Proof.
  assert (Hn : normalized (Timestamp.mk 100 600000000)).
  { split; simpl; [apply in_int64_small; lia | unfold NANOS_PER_SECOND; lia]. }
  split; [exact Hn|]. split; [reflexivity|].
  destruct (proj2 (correct_zero_and_round_trip (Timestamp.mk 100 600000000)
                     (Duration.mk 5 700000000)) Hn) as (Hzero & Hround).
  split; [exact Hzero|].
  apply Hround.
  - split; apply in_int64_small; vm_compute; split; intro H; discriminate H.
  - apply in_int64_small; vm_compute; split; intro H; discriminate H.
  - split; apply in_int64_small; vm_compute; split; intro H; discriminate H.
Defined.

(** C8, as stated, fails at the bounds of the 64-bit seconds: the raw
    timestamp (INT64_MAX s, 0 ns) corrected by +1 s saturates, and the
    correction by -1 s then gives INT64_MAX - 1 s.  A pair that is not in
    normal form is also changed by the zero skew. *)
Lemma correct_round_trip_fails_when_saturating :
  let raw := Timestamp.mk INT64_MAX 0 in
  let skew := Duration.mk 1 0 in
  normalized raw /\
  correct raw skew = raw /\
  correct (correct raw skew) (negate skew) = Timestamp.mk (INT64_MAX - 1) 0 /\
  correct (correct raw skew) (negate skew) <> raw /\
  correct (Timestamp.mk 0 1500000000) Duration.zero = Timestamp.mk 1 500000000.
Proof.
  cbv zeta. split.
  - split; vm_compute; split; first [reflexivity | intro H; discriminate H].
  - split; [reflexivity|]. split; [reflexivity|]. split; [|reflexivity].
    vm_compute. intro H. discriminate H.
Qed.

(** ** Loops that only append *)

Lemma for_each_push_back {A : Type} (xs acc : list A) :
  for_each xs acc push_back = (acc ++ xs)%list.
Proof.
  unfold for_each. revert acc.
  induction xs as [|x xs IH]; intro acc; simpl.
  - now rewrite app_nil_r.
  - rewrite IH. unfold push_back. now rewrite <- app_assoc.
Qed.

(** A loop that pushes [f a] onto the one repeated field of a message. *)
Lemma for_each_wrapped {A B S : Type}
      (wrap : list B -> S) (unwrap : S -> list B) (f : A -> B) :
  (forall l, unwrap (wrap l) = l) ->
  forall xs acc,
    for_each xs (wrap acc) (fun s a => wrap (push_back (unwrap s) (f a)))
    = wrap (acc ++ map f xs)%list.
Proof.
  intros Hw. unfold for_each.
  induction xs as [|x xs IH]; intro acc; simpl.
  - now rewrite app_nil_r.
  - rewrite Hw, IH. unfold push_back. now rewrite <- app_assoc.
Qed.

Lemma GetTf_map (sdk : FrameHelpers) (rs : api.RobotState) (skew : Duration.t)
      (prefix target : string) :
  GetTf sdk rs skew prefix target =
  match api.kinematic_state rs with
  | Some ks =>
      Some (msg.mkTFMessage
              (map (tf_entry sdk (api.acquisition_timestamp ks) skew prefix target)
                   (api.child_to_parent_edge_map (api.transforms_snapshot ks))))
  | None => None
  end.
Proof.
  unfold GetTf. destruct (api.kinematic_state rs) as [ks|]; [|reflexivity].
  f_equal.
  exact (for_each_wrapped msg.mkTFMessage msg.transforms _ (fun l => eq_refl) _ []).
Qed.

(** ** FrameTreeBuilder: [GetTf] *)

Lemma tf_entry_inverted (sdk : FrameHelpers) (ts : Timestamp.t) (skew : Duration.t)
      (prefix : string) (child : string) (edge : api.ParentEdge) :
  tf_entry sdk ts skew prefix (prefix ++ child) (child, edge) =
  toTransformStamped (se3_inverse sdk (api.parent_tform_child edge))
                     (prefix ++ child)
                     (prefix ++ api.parent_frame_name edge)
                     (applyClockSkew ts skew).
Proof. unfold tf_entry. now rewrite String.eqb_refl. Qed.

Lemma tf_entry_pass_through (sdk : FrameHelpers) (ts : Timestamp.t) (skew : Duration.t)
      (prefix target : string) (entry : string * api.ParentEdge) :
  target <> prefix ++ fst entry ->
  tf_entry sdk ts skew prefix target entry = pass_through ts skew prefix entry.
Proof.
  destruct entry as [child edge]. simpl. intro Hne.
  unfold tf_entry, pass_through. apply String.eqb_neq in Hne.
  now rewrite Hne.
Qed.

(** C1, as amended: for every entry of the transform graph whose prefixed
    child name equals the invert-target frame id, [GetTf] emits, at the
    position of that entry, an edge whose transform is the inverse of the
    stored [parent_tform_child] and whose roles are swapped: its parent
    frame is the prefixed child name and its child frame is
    prefix + the stored parent frame name. *)
Theorem GetTf_inverts_target_edge
        (sdk : FrameHelpers) (rs : api.RobotState) (ks : api.KinematicState)
        (skew : Duration.t) (prefix target : string)
        (i : nat) (child : string) (edge : api.ParentEdge) :
  api.kinematic_state rs = Some ks ->
  nth_error (api.child_to_parent_edge_map (api.transforms_snapshot ks)) i
    = Some (child, edge) ->
  prefix ++ child = target ->
  exists tf_msg e,
    GetTf sdk rs skew prefix target = Some tf_msg /\
    List.length (msg.transforms tf_msg)
      = List.length (api.child_to_parent_edge_map (api.transforms_snapshot ks)) /\
    nth_error (msg.transforms tf_msg) i = Some e /\
    msg.transform e = toTransform (se3_inverse sdk (api.parent_tform_child edge)) /\
    parent_id e = prefix ++ child /\
    child_id e = prefix ++ api.parent_frame_name edge /\
    msg.stamp (msg.tf_header e) = applyClockSkew (api.acquisition_timestamp ks) skew.
Proof.
  intros Hks Hnth Htarget. subst target.
  rewrite GetTf_map, Hks.
  eexists. exists (tf_entry sdk (api.acquisition_timestamp ks) skew prefix
                            (prefix ++ child) (child, edge)).
  split; [reflexivity|].
  split; [apply length_map|].
  split.
  - cbn [msg.transforms]. now rewrite nth_error_map, Hnth.
  - rewrite tf_entry_inverted. repeat split.
Qed.

(** The single-edge graph of the spec's example: child "body", parent
    "odom", inverted at "body". *)
Lemma GetTf_inverts_target_edge_witness :
  let ks := single_edge "body" "odom" sample_pose (Timestamp.mk 100 0) in
  api.kinematic_state (kinematic_only ks) = Some ks /\
  forall (sdk : FrameHelpers) (skew : Duration.t),
  exists tf_msg e,
    GetTf sdk (kinematic_only ks) skew "" "body" = Some tf_msg /\
    List.length (msg.transforms tf_msg) = 1%nat /\
    nth_error (msg.transforms tf_msg) 0 = Some e /\
    msg.transform e = toTransform (se3_inverse sdk sample_pose) /\
    parent_id e = "body" /\
    child_id e = "odom" /\
    msg.stamp (msg.tf_header e) = applyClockSkew (Timestamp.mk 100 0) skew.
Proof.
  split; [reflexivity|]. intros sdk skew.
  exact (GetTf_inverts_target_edge sdk
           (kinematic_only (single_edge "body" "odom" sample_pose (Timestamp.mk 100 0)))
           (single_edge "body" "odom" sample_pose (Timestamp.mk 100 0))
           skew "" "body" 0 "body" (api.mkParentEdge "odom" sample_pose)
           eq_refl eq_refl eq_refl).
Defined.

(** C1, as stated, fails on its own example: for the single edge child
    "body", parent "odom" inverted at "body", the one emitted edge has
    parent "body" and child "odom", not child "body" and parent "odom". *)
Lemma GetTf_inverted_edge_roles_not_kept :
  let rs := kinematic_only (single_edge "body" "odom" sample_pose (Timestamp.mk 100 0)) in
  (forall (sdk : FrameHelpers) (skew : Duration.t),
     exists e, GetTf sdk rs skew "" "body" = Some (msg.mkTFMessage [e]) /\
               parent_id e = "body" /\ child_id e = "odom" /\
               msg.transform e = toTransform (se3_inverse sdk sample_pose)) /\
  ~ (forall (sdk : FrameHelpers) (skew : Duration.t),
       exists e, GetTf sdk rs skew "" "body" = Some (msg.mkTFMessage [e]) /\
                 child_id e = "body" /\ parent_id e = "odom").
Proof.
  split.
  - intros sdk skew. eexists. split; [reflexivity|]. repeat split.
  - intro H.
    destruct (H (mkFrameHelpers (fun p => p) (fun _ out => (false, out))
                                (fun _ out => (false, out)))
                Duration.zero) as (e & He & Hc & _).
    injection He as He. subst e. discriminate Hc.
Qed.

Lemma body_is_not_prefixed (name : string) : "body" <> "Opal/" ++ name.
Proof. simpl. discriminate. Qed.

(** ** OdometryDeriver: [GetOdomTwist] and [GetOdom] *)

Lemma GetOdomTwist_Some (rs : api.RobotState) (ks : api.KinematicState)
      (skew : Duration.t) :
  api.kinematic_state rs = Some ks ->
  GetOdomTwist rs skew =
  Some (msg.mkTwistWithCovarianceStamped
          (msg.stamped (applyClockSkew (api.acquisition_timestamp ks) skew))
          (twist_of (api.velocity_of_body_in_odom ks))).
Proof. intro H. unfold GetOdomTwist. now rewrite H. Qed.

Lemma GetOdom_Some (sdk : FrameHelpers) (rs : api.RobotState)
      (ks : api.KinematicState) (skew : Duration.t) (prefix : string)
      (is_using_vision : bool) :
  api.kinematic_state rs = Some ks ->
  GetOdom sdk rs skew prefix is_using_vision =
  Returned
    (Some (msg.mkOdometry
             (msg.mkHeader (applyClockSkew (api.acquisition_timestamp ks) skew)
                           (prefix ++ reference_frame is_using_vision))
             (prefix ++ "body")
             (msg.mkPoseWithCovariance
                (toPose (snd (body_pose_lookup sdk is_using_vision
                                (api.transforms_snapshot ks) api.default_SE3Pose)))
                msg.default_covariance)
             (twist_of (api.velocity_of_body_in_odom ks)))).
Proof.
  intro H. unfold GetOdom. rewrite H, (GetOdomTwist_Some rs ks skew H).
  destruct is_using_vision; reflexivity.
Qed.

Lemma GetOdom_None (sdk : FrameHelpers) (rs : api.RobotState)
      (skew : Duration.t) (prefix : string) (is_using_vision : bool) :
  api.kinematic_state rs = None ->
  GetOdom sdk rs skew prefix is_using_vision = Returned None.
Proof. intro H. unfold GetOdom. now rewrite H. Qed.

(** Frames joined by a path agree on every property the edges preserve. *)
Lemma transform_path_invariant (g : api.FrameTreeSnapshot) (P : string -> Prop) :
  (forall c p, edge_of g c p -> (P c <-> P p)) ->
  forall a b, transform_path g a b -> (P a <-> P b).
Proof.
  intros Hedge a b Hpath.
  induction Hpath as [a b Hab | a | a b _ IH | a b c _ IH1 _ IH2].
  - exact (Hedge a b Hab).
  - reflexivity.
  - symmetry. exact IH.
  - now rewrite IH1.
Qed.

Lemma detached_body_no_path (reference : string) :
  reference = "vision" \/ reference = "odom" ->
  ~ transform_path detached_body_tree reference "body".
Proof.
  intros Href Hpath.
  apply (transform_path_invariant detached_body_tree
           (fun f => f = "vision" \/ f = "odom")) in Hpath.
  - apply Hpath in Href. destruct Href; discriminate.
  - intros c p (e & [Hin | []] & Hp). injection Hin as <- <-.
    simpl in Hp. subst p. split; intros _; [now left | now right].
Qed.

(** C2, as amended: for every snapshot with kinematic state present,
    [GetOdom] returns an odometry message for either reference frame,
    whatever the SDK lookup reports: the [bool] the lookup returns is
    discarded, and the pose is copied from the lookup's output pose, which
    is default-initialised before the call.  When the lookup reports failure
    and leaves its output untouched, the pose is the default, all-zero
    one. *)
Theorem GetOdom_ignores_lookup_failure
        (sdk : FrameHelpers) (rs : api.RobotState) (ks : api.KinematicState)
        (skew : Duration.t) (prefix : string) (is_using_vision : bool) :
  api.kinematic_state rs = Some ks ->
  exists odom,
    GetOdom sdk rs skew prefix is_using_vision = Returned (Some odom) /\
    msg.pose (msg.od_pose odom)
      = toPose (snd (body_pose_lookup sdk is_using_vision
                       (api.transforms_snapshot ks) api.default_SE3Pose)) /\
    (body_pose_lookup sdk is_using_vision (api.transforms_snapshot ks)
                      api.default_SE3Pose = (false, api.default_SE3Pose) ->
     msg.pose (msg.od_pose odom) = toPose api.default_SE3Pose).
Proof.
  intro Hks. rewrite (GetOdom_Some sdk rs ks skew prefix is_using_vision Hks).
  eexists. split; [reflexivity|]. split; [reflexivity|].
  intro Hfail. simpl. now rewrite Hfail.
Qed.

Lemma GetOdom_ignores_lookup_failure_witness :
  api.kinematic_state detached_body_state
    = Some (api.mkKinematicState [] (Timestamp.mk 100 0) detached_body_tree
                                 api.default_SE3Velocity) /\
  forall (sdk : FrameHelpers),
  exists odom,
    GetOdom sdk detached_body_state (Duration.mk 5 0) "Opal/" true
      = Returned (Some odom) /\
    msg.pose (msg.od_pose odom)
      = toPose (snd (GetWorldTformBody sdk detached_body_tree api.default_SE3Pose)) /\
    (GetWorldTformBody sdk detached_body_tree api.default_SE3Pose
       = (false, api.default_SE3Pose) ->
     msg.pose (msg.od_pose odom) = toPose api.default_SE3Pose).
Proof.
  split; [reflexivity|]. intro sdk.
  exact (GetOdom_ignores_lookup_failure sdk detached_body_state _
           (Duration.mk 5 0) "Opal/" true eq_refl).
Defined.

(** C2, as stated, fails: a snapshot with kinematic state whose frame tree
    has no path from "vision" or from "odom" to "body" still yields an
    odometry message, never an error. *)
Lemma GetOdom_no_path_no_error :
  api.has_kinematic_state detached_body_state = true /\
  ~ transform_path detached_body_tree "vision" "body" /\
  ~ transform_path detached_body_tree "odom" "body" /\
  forall (sdk : FrameHelpers) (skew : Duration.t) (prefix : string)
         (is_using_vision : bool),
  exists odom,
    GetOdom sdk detached_body_state skew prefix is_using_vision
      = Returned (Some odom).
Proof.
  split; [reflexivity|].
  split; [apply detached_body_no_path; now left|].
  split; [apply detached_body_no_path; now right|].
  intros sdk skew prefix v.
  rewrite (GetOdom_Some sdk detached_body_state _ skew prefix v eq_refl).
  eexists. reflexivity.
Qed.

Lemma float_1_neq_4 : 1%float <> 4%float.
Proof.
  intro H. apply (f_equal (PrimFloat.eqb 1%float)) in H.
  vm_compute in H. discriminate H.
Qed.

(** C3: the code at a body velocity with linear part (1, 2, 3) and angular
    part (4, 5, 6).  The linear components and the angular y and z are the
    snapshot's; the angular x of the derived twist is 1, the snapshot's
    linear x, where the snapshot's angular x is 4.  [GetOdom] carries the
    same twist. *)
Theorem GetOdomTwist_angular_x_is_linear_x :
  exists tw,
    GetOdomTwist moving_body_state Duration.zero = Some tw /\
    msg.linear (msg.twist (msg.tw_twist tw))
      = msg.mkVector3 1%float 2%float 3%float /\
    msg.angular (msg.twist (msg.tw_twist tw))
      = msg.mkVector3 1%float 5%float 6%float /\
    msg.x (msg.angular (msg.twist (msg.tw_twist tw)))
      <> api.x (api.angular sample_velocity) /\
    forall (sdk : FrameHelpers) (prefix : string) (is_using_vision : bool),
    exists odom,
      GetOdom sdk moving_body_state Duration.zero prefix is_using_vision
        = Returned (Some odom) /\
      msg.od_twist odom = msg.tw_twist tw.
Proof.
  eexists. split; [reflexivity|]. simpl.
  split; [reflexivity|]. split; [reflexivity|].
  split; [exact float_1_neq_4|].
  intros sdk prefix v.
  rewrite (GetOdom_Some sdk moving_body_state _ Duration.zero prefix v eq_refl).
  eexists. split; reflexivity.
Qed.

Lemma vision_is_not_odom (prefix : string) : prefix ++ "vision" <> prefix ++ "odom".
Proof. intro H. apply append_inj_l in H. discriminate H. Qed.

(** C6: for every snapshot with kinematic state present, [GetOdom] with the
    vision reference and with the odom reference both return an odometry
    message; the frame ids are prefix + "vision" and prefix + "odom", which
    differ; the child frame id is prefix + "body" in both; and the two
    twists are equal. *)
Theorem GetOdom_reference_frame_switch
        (sdk : FrameHelpers) (rs : api.RobotState) (skew : Duration.t)
        (prefix : string) :
  api.has_kinematic_state rs = true ->
  exists with_vision with_odom,
    GetOdom sdk rs skew prefix true = Returned (Some with_vision) /\
    GetOdom sdk rs skew prefix false = Returned (Some with_odom) /\
    msg.frame_id (msg.od_header with_vision) = prefix ++ "vision" /\
    msg.frame_id (msg.od_header with_odom) = prefix ++ "odom" /\
    msg.frame_id (msg.od_header with_vision) <> msg.frame_id (msg.od_header with_odom) /\
    msg.od_child_frame_id with_vision = prefix ++ "body" /\
    msg.od_child_frame_id with_odom = prefix ++ "body" /\
    msg.od_twist with_vision = msg.od_twist with_odom.
Proof.
  unfold api.has_kinematic_state.
  destruct (api.kinematic_state rs) as [ks|] eqn:Hks; [intros _ | discriminate].
  rewrite (GetOdom_Some sdk rs ks skew prefix true Hks).
  rewrite (GetOdom_Some sdk rs ks skew prefix false Hks).
  eexists. eexists. split; [reflexivity|]. split; [reflexivity|]. simpl.
  repeat split. apply vision_is_not_odom.
Qed.

Lemma GetOdom_reference_frame_switch_witness :
  api.has_kinematic_state moving_body_state = true /\
  forall (sdk : FrameHelpers),
  exists with_vision with_odom,
    GetOdom sdk moving_body_state (Duration.mk 5 0) "Opal/" true
      = Returned (Some with_vision) /\
    GetOdom sdk moving_body_state (Duration.mk 5 0) "Opal/" false
      = Returned (Some with_odom) /\
    msg.frame_id (msg.od_header with_vision) = "Opal/vision" /\
    msg.frame_id (msg.od_header with_odom) = "Opal/odom" /\
    msg.frame_id (msg.od_header with_vision) <> msg.frame_id (msg.od_header with_odom) /\
    msg.od_child_frame_id with_vision = "Opal/body" /\
    msg.od_child_frame_id with_odom = "Opal/body" /\
    msg.od_twist with_vision = msg.od_twist with_odom.
Proof.
  split; [reflexivity|]. intro sdk.
  exact (GetOdom_reference_frame_switch sdk moving_body_state (Duration.mk 5 0)
           "Opal/" eq_refl).
Defined.

(** ** Joint names: [GetJointStates] *)

Lemma joint_loop_all_known (prefix : string) (joints : list api.JointState) :
  (forall j, In j joints -> find kFriendlyJointNames (api.name j) <> None) ->
  forall acc,
    joint_loop prefix joints acc =
    Returned
      (msg.mkJointState
         (msg.js_header acc)
         (msg.name acc ++ map (joint_name prefix) joints)%list
         (msg.js_position acc ++ map api.js_position joints)%list
         (msg.js_velocity acc ++ map api.js_velocity joints)%list
         (msg.effort acc ++ map api.load joints)%list).
Proof.
  induction joints as [|j joints IH]; intros Hknown acc.
  - simpl. rewrite !app_nil_r. now destruct acc.
  - simpl. unfold at_, joint_name, friendly.
    destruct (find kFriendlyJointNames (api.name j)) as [f|] eqn:Hf.
    + simpl. rewrite IH by (intros j' Hj'; apply Hknown; now right).
      unfold push_back. simpl. now rewrite <- !app_assoc.
    + exfalso. apply (Hknown j); [now left | exact Hf].
Qed.

Lemma joint_loop_unknown (prefix : string) (joints : list api.JointState) :
  (exists j, In j joints /\ find kFriendlyJointNames (api.name j) = None) ->
  forall acc, joint_loop prefix joints acc = Thrown out_of_range.
Proof.
  induction joints as [|j joints IH]; intros (u & Hin & Hu) acc.
  - destruct Hin.
  - simpl. unfold at_.
    destruct (find kFriendlyJointNames (api.name j)) as [f|] eqn:Hf; [|reflexivity].
    simpl. apply IH. exists u. split; [|exact Hu].
    destruct Hin as [-> | Hin]; [congruence | exact Hin].
Qed.

Lemma GetJointStates_all_known (rs : api.RobotState) (ks : api.KinematicState)
      (skew : Duration.t) (prefix : string) :
  api.kinematic_state rs = Some ks ->
  (forall j, In j (api.joint_states ks) ->
             find kFriendlyJointNames (api.name j) <> None) ->
  GetJointStates rs skew prefix =
  Returned
    (Some (msg.mkJointState
             (msg.stamped (applyClockSkew (api.acquisition_timestamp ks) skew))
             (map (joint_name prefix) (api.joint_states ks))
             (map api.js_position (api.joint_states ks))
             (map api.js_velocity (api.joint_states ks))
             (map api.load (api.joint_states ks)))).
Proof.
  intros Hks Hknown. unfold GetJointStates. rewrite Hks.
  now rewrite (joint_loop_all_known prefix _ Hknown).
Qed.

Lemma GetJointStates_unknown (rs : api.RobotState) (ks : api.KinematicState)
      (skew : Duration.t) (prefix : string) :
  api.kinematic_state rs = Some ks ->
  (exists j, In j (api.joint_states ks) /\
             find kFriendlyJointNames (api.name j) = None) ->
  GetJointStates rs skew prefix = Thrown out_of_range.
Proof.
  intros Hks Hu. unfold GetJointStates. rewrite Hks.
  now rewrite (joint_loop_unknown prefix _ Hu).
Qed.

(** C7: for every snapshot with kinematic state present: when every joint's
    raw name is a key of [kFriendlyJointNames], [GetJointStates] returns a
    joint state with one name per joint, in order, the name of a joint
    being prefix + the friendly name of its raw name (and its position,
    velocity and effort being the joint's); when some joint's raw name is
    not a key, [GetJointStates] throws [std::out_of_range]: no joint state
    with that joint left out is returned. *)
Theorem GetJointStates_friendly_or_throws
        (rs : api.RobotState) (ks : api.KinematicState)
        (skew : Duration.t) (prefix : string) :
  api.kinematic_state rs = Some ks ->
  ((forall j, In j (api.joint_states ks) ->
              find kFriendlyJointNames (api.name j) <> None) ->
   exists js,
     GetJointStates rs skew prefix = Returned (Some js) /\
     List.length (msg.name js) = List.length (api.joint_states ks) /\
     forall i joint,
       nth_error (api.joint_states ks) i = Some joint ->
       exists f,
         find kFriendlyJointNames (api.name joint) = Some f /\
         nth_error (msg.name js) i = Some (prefix ++ f) /\
         nth_error (msg.js_position js) i = Some (api.js_position joint) /\
         nth_error (msg.js_velocity js) i = Some (api.js_velocity joint) /\
         nth_error (msg.effort js) i = Some (api.load joint)) /\
  ((exists j, In j (api.joint_states ks) /\
              find kFriendlyJointNames (api.name j) = None) ->
   GetJointStates rs skew prefix = Thrown out_of_range).
Proof.
  intro Hks. split.
  - intro Hknown.
    rewrite (GetJointStates_all_known rs ks skew prefix Hks Hknown).
    eexists. split; [reflexivity|]. cbn [msg.name msg.js_position msg.js_velocity msg.effort].
    split; [apply length_map|].
    intros i joint Hnth.
    assert (Hin : In joint (api.joint_states ks)) by (eapply nth_error_In; exact Hnth).
    specialize (Hknown joint Hin).
    destruct (find kFriendlyJointNames (api.name joint)) as [f|] eqn:Hf; [|congruence].
    exists f. split; [reflexivity|].
    rewrite !nth_error_map, Hnth. simpl. unfold joint_name, friendly. now rewrite Hf.
  - exact (GetJointStates_unknown rs ks skew prefix Hks).
Qed.

(** The spec's example: raw name "fl.hx" under the prefix "Opal/". *)
Lemma GetJointStates_friendly_or_throws_witness :
  api.kinematic_state (kinematic_only front_left_hip) = Some front_left_hip /\
  exists js,
    GetJointStates (kinematic_only front_left_hip) (Duration.mk 5 0) "Opal/"
      = Returned (Some js) /\
    nth_error (msg.name js) 0 = Some "Opal/front_left_hip_x".
Proof.
  split; [reflexivity|].
  destruct (proj1 (GetJointStates_friendly_or_throws
                     (kinematic_only front_left_hip) front_left_hip
                     (Duration.mk 5 0) "Opal/" eq_refl))
    as (js & Hjs & _ & Hnth).
  - intros j [<- | []]. discriminate.
  - exists js. split; [exact Hjs|].
    destruct (Hnth 0%nat _ eq_refl) as (f & Hf & Hname & _).
    injection Hf as <-. exact Hname.
Defined.

(** ** StateAggregator: [getRobotState] *)

Lemma GetBatteryStates_stamps (rs : api.RobotState) (skew : Duration.t) :
  map (fun b => msg.stamp (msg.bat_header b))
      (msg.battery_states (GetBatteryStates rs skew))
  = map (fun raw => applyClockSkew raw skew)
        (map api.bat_timestamp (api.battery_states rs)).
Proof.
  unfold GetBatteryStates. cbv zeta.
  rewrite (for_each_wrapped msg.mkBatteryStateArray msg.battery_states _
                            (fun _ => eq_refl)).
  simpl. now rewrite !map_map.
Qed.

Lemma GetEstopStates_stamps (rs : api.RobotState) (skew : Duration.t) :
  map (fun e => msg.stamp (msg.es_header e))
      (msg.estop_states (GetEstopStates rs skew))
  = map (fun raw => applyClockSkew raw skew)
        (map api.es_timestamp (api.estop_states rs)).
Proof.
  unfold GetEstopStates. cbv zeta.
  rewrite (for_each_wrapped msg.mkEStopStateArray msg.estop_states _
                            (fun _ => eq_refl)).
  simpl. now rewrite !map_map.
Qed.

Lemma GetSystemFaultState_map (rs : api.RobotState) (skew : Duration.t) :
  GetSystemFaultState rs skew =
  match api.system_fault_state rs with
  | Some sfs =>
      Some (msg.mkSystemFaultState
              (map (create_fault_message skew) (api.faults sfs))
              (map (create_fault_message skew) (api.historical_faults sfs)))
  | None => None
  end.
Proof.
  unfold GetSystemFaultState.
  destruct (api.system_fault_state rs) as [sfs|]; [|reflexivity]. f_equal.
  assert (H1 : forall xs fs hs,
             for_each xs (msg.mkSystemFaultState fs hs)
               (fun s fault =>
                  msg.mkSystemFaultState
                    (push_back (msg.faults s) (create_fault_message skew fault))
                    (msg.historical_faults s))
             = msg.mkSystemFaultState (fs ++ map (create_fault_message skew) xs) hs).
  { unfold for_each. induction xs as [|x xs IH]; intros fs hs; simpl.
    - now rewrite app_nil_r.
    - rewrite IH. unfold push_back. now rewrite <- app_assoc. }
  assert (H2 : forall xs fs hs,
             for_each xs (msg.mkSystemFaultState fs hs)
               (fun s fault =>
                  msg.mkSystemFaultState
                    (msg.faults s)
                    (push_back (msg.historical_faults s)
                               (create_fault_message skew fault)))
             = msg.mkSystemFaultState fs (hs ++ map (create_fault_message skew) xs)).
  { unfold for_each. induction xs as [|x xs IH]; intros fs hs; simpl.
    - now rewrite app_nil_r.
    - rewrite IH. unfold push_back. now rewrite <- app_assoc. }
  cbv zeta. rewrite H1, H2. reflexivity.
Qed.

Lemma GetBehaviorFaultState_stamps (rs : api.RobotState) (skew : Duration.t) :
  opt_list (fun b => map (fun f => msg.stamp (msg.bf_header f)) (msg.bf_faults b))
           (GetBehaviorFaultState rs skew)
  = map (fun raw => applyClockSkew raw skew)
        (opt_list (fun b => map api.bf_onset_timestamp (api.bf_faults b))
                  (api.behavior_fault_state rs)).
Proof.
  unfold GetBehaviorFaultState.
  destruct (api.behavior_fault_state rs) as [bfs|]; [|reflexivity].
  cbv zeta.
  rewrite (for_each_wrapped msg.mkBehaviorFaultState msg.bf_faults _
                            (fun _ => eq_refl)).
  simpl. now rewrite !map_map.
Qed.

Lemma GetSystemFaultState_stamps (rs : api.RobotState) (skew : Duration.t) :
  opt_list (fun s => map (fun f => msg.stamp (msg.sf_header f)) (msg.faults s)
                     ++ map (fun f => msg.stamp (msg.sf_header f))
                            (msg.historical_faults s))%list
           (GetSystemFaultState rs skew)
  = map (fun raw => applyClockSkew raw skew)
        (opt_list (fun s => map api.sf_onset_timestamp (api.faults s)
                            ++ map api.sf_onset_timestamp (api.historical_faults s))%list
                  (api.system_fault_state rs)).
Proof.
  rewrite GetSystemFaultState_map.
  destruct (api.system_fault_state rs) as [sfs|]; [|reflexivity].
  simpl. now rewrite map_app, !map_map.
Qed.

Lemma GetPowerState_stamps (rs : api.RobotState) (skew : Duration.t) :
  opt_list (fun p => [msg.stamp (msg.ps_header p)]) (GetPowerState rs skew)
  = map (fun raw => applyClockSkew raw skew)
        (opt_list (fun p => [api.ps_timestamp p]) (api.power_state rs)).
Proof.
  unfold GetPowerState. now destruct (api.power_state rs).
Qed.

Lemma all_joints_known_true (rs : api.RobotState) (ks : api.KinematicState) :
  api.kinematic_state rs = Some ks ->
  all_joints_known rs = true ->
  forall j, In j (api.joint_states ks) ->
            find kFriendlyJointNames (api.name j) <> None.
Proof.
  unfold all_joints_known, api.kinematic_state_or_default.
  intros -> Hall j Hj Hnone.
  rewrite forallb_forall in Hall. specialize (Hall j Hj).
  rewrite Hnone in Hall. discriminate Hall.
Qed.

Lemma all_joints_known_false (rs : api.RobotState) :
  all_joints_known rs = false ->
  exists ks, api.kinematic_state rs = Some ks /\
             exists j, In j (api.joint_states ks) /\
                       find kFriendlyJointNames (api.name j) = None.
Proof.
  unfold all_joints_known, api.kinematic_state_or_default.
  destruct (api.kinematic_state rs) as [ks|]; [|discriminate].
  intro Hall. exists ks. split; [reflexivity|].
  induction (api.joint_states ks) as [|j js IH]; [discriminate|].
  cbn [forallb] in Hall. apply andb_false_iff in Hall. destruct Hall as [Hj | Hjs].
  - exists j. split; [now left|].
    destruct (find kFriendlyJointNames (api.name j)); [discriminate Hj | reflexivity].
  - destruct (IH Hjs) as (u & Hin & Hu). exists u. split; [now right | exact Hu].
Qed.

Lemma assemble_known (sdk : FrameHelpers) (rs : api.RobotState) (skew : Duration.t) :
  all_joints_known rs = true ->
  DefaultRobotStateClient.assemble sdk rs skew = Returned (aggregated sdk rs skew).
Proof.
  intro Hall. unfold DefaultRobotStateClient.assemble, aggregated.
  destruct (api.kinematic_state rs) as [ks|] eqn:Hks.
  - rewrite (GetJointStates_all_known rs ks skew "Opal/" Hks
               (all_joints_known_true rs ks Hks Hall)).
    rewrite (GetOdom_Some sdk rs ks skew "Opal/" true Hks). reflexivity.
  - rewrite (GetOdom_None sdk rs skew "Opal/" true Hks).
    unfold GetJointStates. rewrite Hks. reflexivity.
Qed.

Lemma assemble_unknown (sdk : FrameHelpers) (rs : api.RobotState) (skew : Duration.t) :
  all_joints_known rs = false ->
  DefaultRobotStateClient.assemble sdk rs skew = Thrown out_of_range.
Proof.
  intro Hall. destruct (all_joints_known_false rs Hall) as (ks & Hks & Hu).
  unfold DefaultRobotStateClient.assemble.
  now rewrite (GetJointStates_unknown rs ks skew "Opal/" Hks Hu).
Qed.

(** The three ways a call of [getRobotState] can go. *)
Lemma getRobotState_cases (sdk : FrameHelpers) (self : DefaultRobotStateClient.t)
      (calls : Calls) :
  let r := GetRobotStateAsync (DefaultRobotStateClient.client_ self)
                              (state_requests calls) in
  let k := getClockSkew (DefaultRobotStateClient.time_sync_api_ self)
                        (skew_lookups calls) in
  DefaultRobotStateClient.getRobotState sdk self calls =
  match ok (status r), robot_state (response r) with
  | true, Some rs =>
      (match k with
       | Unexpected e =>
           Returned (Unexpected ("Failed to get latest clock skew: " ++ e))
       | Expected skew =>
           if all_joints_known rs
           then Returned (Expected (aggregated sdk rs skew))
           else Thrown out_of_range
       end,
       mkCalls (S (state_requests calls)) (S (skew_lookups calls)))
  | _, _ =>
      (Returned (Unexpected ("Failed to get robot state: " ++ DebugString (status r))),
       mkCalls (S (state_requests calls)) (skew_lookups calls))
  end.
Proof.
  intros r k. unfold DefaultRobotStateClient.getRobotState.
  fold r. unfold has_robot_state, robot_state_or_default.
  destruct (ok (status r)); [|reflexivity].
  destruct (robot_state (response r)) as [rs|]; [|reflexivity].
  cbn [negb orb has state_requests skew_lookups]. fold k.
  destruct k as [skew|e]; [|reflexivity].
  destruct (all_joints_known rs) eqn:Hall.
  - now rewrite (assemble_known sdk rs skew Hall).
  - now rewrite (assemble_unknown sdk rs skew Hall).
Qed.

Lemma tf_entry_stamp (sdk : FrameHelpers) (ts : Timestamp.t) (skew : Duration.t)
      (prefix target : string) (entry : string * api.ParentEdge) :
  msg.stamp (msg.tf_header (tf_entry sdk ts skew prefix target entry))
  = applyClockSkew ts skew.
Proof.
  destruct entry as [child edge]. unfold tf_entry.
  now destruct (String.eqb target (prefix ++ child)).
Qed.

Lemma aggregated_kinematic_stamps (sdk : FrameHelpers) (rs : api.RobotState)
      (skew : Duration.t) :
  kinematic_stamps (aggregated sdk rs skew)
  = map (fun raw => applyClockSkew raw skew) (raw_kinematic_stamps rs).
Proof.
  unfold kinematic_stamps, raw_kinematic_stamps, aggregated.
  cbn [maybe_joint_states maybe_tf maybe_odom_twist maybe_odom maybe_end_effector_force].
  rewrite GetTf_map. unfold GetOdomTwist, GetEndEffectorForce.
  assert (Htf : forall ks,
             map (fun e => msg.stamp (msg.tf_header e))
                 (map (tf_entry sdk (api.acquisition_timestamp ks) skew "Opal/" "body")
                      (api.child_to_parent_edge_map (api.transforms_snapshot ks)))
             = map (fun raw => applyClockSkew raw skew)
                   (map (fun _ => api.acquisition_timestamp ks)
                        (api.child_to_parent_edge_map (api.transforms_snapshot ks)))).
  { intro ks. rewrite !map_map. apply map_ext. intro entry. apply tf_entry_stamp. }
  unfold api.kinematic_state_or_default.
  destruct (api.kinematic_state rs) as [ks|], (api.manipulator_state rs) as [ms|];
    cbn [option_map opt_list msg.transforms app joint_states_of odometry_of
         msg.js_header msg.od_header msg.tw_header msg.v3_header msg.stamp
         msg.stamped];
    rewrite ?Htf; repeat (first [rewrite map_app | progress cbn [map app]]);
    rewrite <- ?app_assoc; reflexivity.
Qed.

Lemma aggregated_stamps (sdk : FrameHelpers) (rs : api.RobotState)
      (skew : Duration.t) :
  stamps (aggregated sdk rs skew)
  = map (fun raw => applyClockSkew raw skew) (raw_stamps rs).
Proof.
  unfold stamps, raw_stamps. rewrite !map_app.
  rewrite (aggregated_kinematic_stamps sdk rs skew).
  unfold aggregated.
  cbn [battery_states estop_states maybe_power_state maybe_system_fault_state
       maybe_behavior_fault_state].
  rewrite GetBatteryStates_stamps, GetEstopStates_stamps, GetPowerState_stamps,
          GetSystemFaultState_stamps, GetBehaviorFaultState_stamps.
  reflexivity.
Qed.

Lemma aggregated_presence (sdk : FrameHelpers) (rs : api.RobotState)
      (skew : Duration.t) :
  presence_matches rs (aggregated sdk rs skew).
Proof.
  unfold presence_matches, aggregated, GetTf, GetOdomTwist, GetPowerState,
    GetSystemFaultState, GetManipulatorState, GetEndEffectorForce,
    GetBehaviorFaultState, api.has_kinematic_state, api.has_power_state,
    api.has_system_fault_state, api.has_manipulator_state,
    api.has_behavior_fault_state.
  cbn [maybe_joint_states maybe_tf maybe_odom_twist maybe_odom maybe_power_state
       maybe_system_fault_state maybe_manipulator_state maybe_end_effector_force
       maybe_behavior_fault_state].
  destruct (api.kinematic_state rs), (api.power_state rs),
    (api.system_fault_state rs), (api.manipulator_state rs),
    (api.behavior_fault_state rs); repeat split.
Qed.

Lemma fetch_cases (self : DefaultStateClient.t) (calls : Calls) :
  let r := GetRobotStateAsync (DefaultStateClient.client_ self)
                              (state_requests calls) in
  let fetched := fst (DefaultStateClient.getRobotState self calls) in
  (ok (status r) = false \/ robot_state (response r) = None ->
   fetched = Unexpected ("Failed to get robot state: " ++ DebugString (status r))) /\
  (forall rs, ok (status r) = true -> robot_state (response r) = Some rs ->
              fetched = Expected rs).
Proof.
  intros r fetched. subst fetched. unfold DefaultStateClient.getRobotState.
  fold r. unfold has_robot_state, robot_state_or_default.
  destruct (ok (status r)), (robot_state (response r)) as [rs|]; cbn; split;
    try reflexivity; try (intros [H | H]; discriminate H);
    try (intros rs' H H'; discriminate).
  intros rs' _ H. now injection H as <-.
Qed.

(** C4, as amended: [getRobotState] returns an error exactly when the fetch
    did not succeed or carried no robot state ("Failed to get robot state:
    ...") or when the clock-skew lookup fails ("Failed to get latest clock
    skew: ...").  When both succeed it returns a [RobotState], each optional
    member of which is present exactly when its source sub-message is,
    provided every joint name of the kinematic state is a key of the
    friendly-name table; an absent kinematic state has no joints, so absent
    sub-messages never make the call fail.  With a joint name outside the
    table the call throws [std::out_of_range].  The fetch-only client of
    default_state_client.cpp reports the same fetch error. *)
Theorem getRobotState_error_state_or_throw
        (sdk : FrameHelpers) (self : DefaultRobotStateClient.t) (calls : Calls) :
  let r := GetRobotStateAsync (DefaultRobotStateClient.client_ self)
                              (state_requests calls) in
  let k := getClockSkew (DefaultRobotStateClient.time_sync_api_ self)
                        (skew_lookups calls) in
  let result := fst (DefaultRobotStateClient.getRobotState sdk self calls) in
  (let fetched :=
     fst (DefaultStateClient.getRobotState
            (DefaultStateClient.DefaultStateClient
               (DefaultRobotStateClient.client_ self)) calls) in
   (ok (status r) = false \/ robot_state (response r) = None ->
    fetched = Unexpected ("Failed to get robot state: " ++ DebugString (status r))) /\
   (forall rs, ok (status r) = true -> robot_state (response r) = Some rs ->
               fetched = Expected rs)) /\
  ((exists e, result = Returned (Unexpected e)) <->
   (ok (status r) = false \/ robot_state (response r) = None \/
    exists e, k = Unexpected e)) /\
  (ok (status r) = false \/ robot_state (response r) = None ->
   result = Returned (Unexpected ("Failed to get robot state: "
                                  ++ DebugString (status r)))) /\
  (forall rs,
     ok (status r) = true -> robot_state (response r) = Some rs ->
     (forall e, k = Unexpected e ->
        result = Returned (Unexpected ("Failed to get latest clock skew: " ++ e))) /\
     (forall skew, k = Expected skew ->
        (all_joints_known rs = true ->
         exists out, result = Returned (Expected out) /\ presence_matches rs out) /\
        (all_joints_known rs = false -> result = Thrown out_of_range) /\
        (api.kinematic_state rs = None -> all_joints_known rs = true))).
Proof.
  intros r k result. subst result.
  split;
    [exact (fetch_cases (DefaultStateClient.DefaultStateClient
                           (DefaultRobotStateClient.client_ self)) calls)|].
  rewrite (getRobotState_cases sdk self calls). fold r k.
  destruct (ok (status r)) eqn:Hok.
  - destruct (robot_state (response r)) as [rs|] eqn:Hrs.
    + cbn [fst]. split; [|split].
      * split.
        -- intros [e He]. right. right.
           destruct k as [skew|e']; [|now exists e'].
           destruct (all_joints_known rs); discriminate He.
        -- intros [H | [H | [e He]]]; [discriminate H | discriminate H |].
           rewrite He. eexists. reflexivity.
      * intros [H | H]; discriminate H.
      * intros rs' _ Hrs'. injection Hrs' as <-. split.
        -- intros e ->. reflexivity.
        -- intros skew ->. split; [|split].
           ++ intros ->. eexists. split; [reflexivity | apply aggregated_presence].
           ++ intros ->. reflexivity.
           ++ intro Hks. unfold all_joints_known, api.kinematic_state_or_default.
              now rewrite Hks.
    + cbn [fst]. split; [|split].
      * split; [intros _; right; now left | intros _; eexists; reflexivity].
      * reflexivity.
      * intros rs _ H. discriminate H.
  - cbn [fst]. split; [|split].
    + split; [intros _; now left | intros _; eexists; reflexivity].
    + reflexivity.
    + intros rs H. discriminate H.
Qed.

Lemma getRobotState_error_state_or_throw_witness :
  let self := DefaultRobotStateClient.DefaultRobotStateClient
                (answering opal_state) (skewed_by (Duration.mk 5 0)) "Opal" in
  all_joints_known opal_state = true /\
  forall sdk : FrameHelpers,
  exists out,
    fst (DefaultRobotStateClient.getRobotState sdk self (mkCalls 0 0))
      = Returned (Expected out) /\
    presence_matches opal_state out.
Proof.
  split; [reflexivity|]. intro sdk.
  exact (proj1 (proj2 (proj2 (proj2 (proj2
           (getRobotState_error_state_or_throw sdk
              (DefaultRobotStateClient.DefaultRobotStateClient
                 (answering opal_state) (skewed_by (Duration.mk 5 0)) "Opal")
              (mkCalls 0 0))))
           opal_state eq_refl eq_refl) (Duration.mk 5 0) eq_refl) eq_refl).
Defined.

(** C4, as stated, fails: the fetch succeeds and carries a robot state, the
    clock-skew lookup succeeds, and yet no state is returned, because a
    joint name is not in the friendly-name table and the call throws. *)
Lemma getRobotState_unknown_joint_throws :
  let self := DefaultRobotStateClient.DefaultRobotStateClient
                (answering unknown_joint_state) (skewed_by (Duration.mk 5 0)) "Opal" in
  let r := GetRobotStateAsync (DefaultRobotStateClient.client_ self) 0 in
  ok (status r) = true /\
  has_robot_state (response r) = true /\
  getClockSkew (DefaultRobotStateClient.time_sync_api_ self) 0
    = Expected (Duration.mk 5 0) /\
  forall sdk : FrameHelpers,
    fst (DefaultRobotStateClient.getRobotState sdk self (mkCalls 0 0))
      = Thrown out_of_range /\
    ~ (exists out,
         fst (DefaultRobotStateClient.getRobotState sdk self (mkCalls 0 0))
           = Returned (Expected out)).
Proof.
  repeat split; try reflexivity.
  intros [out Hout]. discriminate Hout.
Qed.

Lemma getRobotState_success (sdk : FrameHelpers) (self : DefaultRobotStateClient.t)
      (calls calls' : Calls) (out : RobotState) :
  DefaultRobotStateClient.getRobotState sdk self calls
    = (Returned (Expected out), calls') ->
  exists rs skew,
    ok (status (GetRobotStateAsync (DefaultRobotStateClient.client_ self)
                                   (state_requests calls))) = true /\
    robot_state (response (GetRobotStateAsync (DefaultRobotStateClient.client_ self)
                                              (state_requests calls))) = Some rs /\
    getClockSkew (DefaultRobotStateClient.time_sync_api_ self) (skew_lookups calls)
      = Expected skew /\
    all_joints_known rs = true /\
    out = aggregated sdk rs skew /\
    calls' = mkCalls (S (state_requests calls)) (S (skew_lookups calls)).
Proof.
  rewrite (getRobotState_cases sdk self calls).
  destruct (ok (status _)); [|discriminate].
  destruct (robot_state (response _)) as [rs|]; [|discriminate].
  destruct (getClockSkew _ _) as [skew|e]; [|discriminate].
  destruct (all_joints_known rs) eqn:Hall; [|discriminate].
  intro H. injection H as <- <-.
  exists rs, skew. repeat split. exact Hall.
Qed.

Lemma raw_kinematic_stamps_acquisition (rs : api.RobotState) (ks : api.KinematicState) :
  api.kinematic_state rs = Some ks ->
  raw_kinematic_stamps rs <> [] /\
  Forall (eq (api.acquisition_timestamp ks)) (raw_kinematic_stamps rs).
Proof.
  intro Hks. unfold raw_kinematic_stamps, api.kinematic_state_or_default.
  rewrite Hks. cbn [opt_list]. split; [discriminate|].
  apply Forall_app. split.
  - constructor; [reflexivity|]. apply Forall_app. split.
    + apply Forall_map, Forall_forall. reflexivity.
    + repeat constructor.
  - destruct (api.manipulator_state rs); repeat constructor.
Qed.

Lemma Forall_corrected (raw : Timestamp.t) (skew : Duration.t) (l : list Timestamp.t) :
  Forall (eq raw) l ->
  Forall (eq (applyClockSkew raw skew)) (map (fun t => applyClockSkew t skew) l).
Proof.
  intro H. apply Forall_map. revert H. apply Forall_impl. now intros t <-.
Qed.

(** C5, as amended: in a call of [getRobotState] that returns a state, the
    clock skew is looked up exactly once; every stamp of the state is the
    correction, by that one skew, of the raw timestamp it is derived from;
    and for a snapshot with kinematic state present, acquisition timestamp
    100 s and skew +5 s, every stamp derived from the acquisition timestamp
    (joint state, each frame edge, twist, odometry, end-effector force) is
    105 s, as is every stamp of the state when no other raw timestamp of
    the snapshot differs from 100 s. *)
Theorem getRobotState_single_skew
        (sdk : FrameHelpers) (self : DefaultRobotStateClient.t)
        (calls calls' : Calls) (out : RobotState) :
  DefaultRobotStateClient.getRobotState sdk self calls
    = (Returned (Expected out), calls') ->
  exists rs skew,
    robot_state (response (GetRobotStateAsync (DefaultRobotStateClient.client_ self)
                                              (state_requests calls))) = Some rs /\
    getClockSkew (DefaultRobotStateClient.time_sync_api_ self) (skew_lookups calls)
      = Expected skew /\
    skew_lookups calls' = S (skew_lookups calls) /\
    stamps out = map (fun raw => applyClockSkew raw skew) (raw_stamps rs) /\
    kinematic_stamps out
      = map (fun raw => applyClockSkew raw skew) (raw_kinematic_stamps rs) /\
    (forall ks,
       api.kinematic_state rs = Some ks ->
       api.acquisition_timestamp ks = Timestamp.mk 100 0 ->
       skew = Duration.mk 5 0 ->
       kinematic_stamps out <> [] /\
       Forall (eq (msg.mkTime 105 0)) (kinematic_stamps out) /\
       (Forall (eq (Timestamp.mk 100 0)) (raw_stamps rs) ->
        Forall (eq (msg.mkTime 105 0)) (stamps out))).
Proof.
  intro Hget.
  destruct (getRobotState_success sdk self calls calls' out Hget)
    as (rs & skew & _ & Hrs & Hskew & _ & -> & ->).
  exists rs, skew.
  split; [exact Hrs|]. split; [exact Hskew|]. split; [reflexivity|].
  split; [apply aggregated_stamps|]. split; [apply aggregated_kinematic_stamps|].
  intros ks Hks Hacq ->.
  rewrite aggregated_kinematic_stamps, aggregated_stamps.
  destruct (raw_kinematic_stamps_acquisition rs ks Hks) as [Hne Hall].
  rewrite Hacq in Hall.
  split; [|split].
  - destruct (raw_kinematic_stamps rs); [now elim Hne | discriminate].
  - exact (Forall_corrected (Timestamp.mk 100 0) (Duration.mk 5 0) _ Hall).
  - exact (Forall_corrected (Timestamp.mk 100 0) (Duration.mk 5 0) _).
Qed.

(** The spec's end-to-end example: snapshot at 100 s, skew +5 s, one joint
    "fl.hx". *)
Lemma getRobotState_single_skew_witness :
  let self := DefaultRobotStateClient.DefaultRobotStateClient
                (answering opal_state) (skewed_by (Duration.mk 5 0)) "Opal" in
  getClockSkew (DefaultRobotStateClient.time_sync_api_ self) 0
    = Expected (Duration.mk 5 0) /\
  forall sdk : FrameHelpers,
  exists out calls',
    DefaultRobotStateClient.getRobotState sdk self (mkCalls 0 0)
      = (Returned (Expected out), calls') /\
    skew_lookups calls' = 1%nat /\
    stamps out = repeat (msg.mkTime 105 0) 4 /\
    Forall (eq (msg.mkTime 105 0)) (stamps out) /\
    option_map msg.name (maybe_joint_states out) = Some ["Opal/front_left_hip_x"].
Proof.
  split; [reflexivity|]. intro sdk.
  eexists. eexists. split; [reflexivity|].
  destruct (getRobotState_single_skew sdk
              (DefaultRobotStateClient.DefaultRobotStateClient
                 (answering opal_state) (skewed_by (Duration.mk 5 0)) "Opal")
              (mkCalls 0 0) _ _ eq_refl)
    as (rs & skew & Hrs & Hskew & Hcalls & _ & _ & Hall).
  injection Hrs as <-. injection Hskew as <-.
  destruct (Hall _ eq_refl eq_refl eq_refl) as (_ & _ & Hstamps).
  split; [exact Hcalls|]. split; [reflexivity|].
  split; [apply Hstamps; repeat constructor | reflexivity].
Defined.

(** C5, as stated, fails: a snapshot with kinematic state present,
    acquisition timestamp 100 s and skew +5 s, whose battery reports its own
    timestamp 50 s, yields a state in which the battery's stamp is 55 s:
    not every derived timestamp is 105 s. *)
Lemma getRobotState_battery_stamp_is_its_own :
  let self := DefaultRobotStateClient.DefaultRobotStateClient
                (answering stale_battery_state) (skewed_by (Duration.mk 5 0)) "Opal" in
  option_map api.acquisition_timestamp (api.kinematic_state stale_battery_state)
    = Some (Timestamp.mk 100 0) /\
  forall sdk : FrameHelpers,
  exists out calls',
    DefaultRobotStateClient.getRobotState sdk self (mkCalls 0 0)
      = (Returned (Expected out), calls') /\
    stamps out = msg.mkTime 55 0 :: repeat (msg.mkTime 105 0) 4 /\
    ~ Forall (eq (msg.mkTime 105 0)) (stamps out).
Proof.
  split; [reflexivity|]. intro sdk.
  eexists. eexists. split; [reflexivity|]. split; [reflexivity|].
  intro H. inversion H as [|t l Hhead _]. discriminate Hhead.
Qed.

Lemma GetTf_Opal_body (sdk : FrameHelpers) (rs : api.RobotState) (skew : Duration.t) :
  GetTf sdk rs skew "Opal/" "body" =
  match api.kinematic_state rs with
  | Some ks =>
      Some (msg.mkTFMessage
              (map (pass_through (api.acquisition_timestamp ks) skew "Opal/")
                   (api.child_to_parent_edge_map (api.transforms_snapshot ks))))
  | None => None
  end.
Proof.
  rewrite GetTf_map. destruct (api.kinematic_state rs) as [ks|]; [|reflexivity].
  do 2 f_equal. apply map_ext. intro entry.
  apply tf_entry_pass_through, body_is_not_prefixed.
Qed.

(** C9: with the arguments [getRobotState] passes ("Opal/" and "body"), the
    inversion branch of [GetTf] is never taken: for every robot state every
    emitted edge is the stored transform, with parent "Opal/" + the stored
    parent frame name and child "Opal/" + the child frame name; this is the
    frame tree of every state [getRobotState] assembles. *)
Theorem GetTf_Opal_body_never_inverts
        (sdk : FrameHelpers) (rs : api.RobotState) (skew : Duration.t) :
  let edges :=
    match api.kinematic_state rs with
    | Some ks =>
        Some (msg.mkTFMessage
                (map (pass_through (api.acquisition_timestamp ks) skew "Opal/")
                     (api.child_to_parent_edge_map (api.transforms_snapshot ks))))
    | None => None
    end in
  GetTf sdk rs skew "Opal/" "body" = edges /\
  (forall e, In e (opt_list msg.transforms edges) ->
     exists child edge,
       In (child, edge)
          (api.child_to_parent_edge_map
             (api.transforms_snapshot (api.kinematic_state_or_default rs))) /\
       msg.transform e = toTransform (api.parent_tform_child edge) /\
       parent_id e = "Opal/" ++ api.parent_frame_name edge /\
       child_id e = "Opal/" ++ child) /\
  forall out : RobotState,
    DefaultRobotStateClient.assemble sdk rs skew = Returned out ->
    maybe_tf out = edges.
Proof.
  cbv zeta. split; [apply GetTf_Opal_body|]. split.
  - unfold api.kinematic_state_or_default.
    destruct (api.kinematic_state rs) as [ks|]; [|intros e []].
    cbn [opt_list msg.transforms]. intros e He.
    apply in_map_iff in He. destruct He as ([child edge] & <- & Hin).
    exists child, edge. split; [exact Hin|]. repeat split.
  - intros out Hout. rewrite <- (GetTf_Opal_body sdk rs skew).
    unfold DefaultRobotStateClient.assemble in Hout.
    destruct (GetJointStates rs skew "Opal/") as [js|]; [|discriminate]. simpl in Hout.
    destruct (GetOdom sdk rs skew "Opal/" true) as [od|]; [|discriminate]. simpl in Hout.
    injection Hout as <-. reflexivity.
Qed.

(** The single edge "body" -> "odom": even this edge, whose child is the
    invert target, is passed through. *)
Lemma GetTf_Opal_body_never_inverts_witness :
  all_joints_known opal_state = true /\
  forall (sdk : FrameHelpers) (skew : Duration.t),
    maybe_tf (aggregated sdk opal_state skew)
    = Some (msg.mkTFMessage
              [toTransformStamped sample_pose "Opal/odom" "Opal/body"
                                  (applyClockSkew (Timestamp.mk 100 0) skew)]).
Proof.
  split; [reflexivity|]. intros sdk skew.
  exact (proj2 (proj2 (GetTf_Opal_body_never_inverts sdk opal_state skew))
               (aggregated sdk opal_state skew)
               (assemble_known sdk opal_state skew eq_refl)).
Defined.

Lemma aggregated_opal_prefixed (sdk : FrameHelpers) (rs : api.RobotState)
      (skew : Duration.t) :
  opal_prefixed (aggregated sdk rs skew).
Proof.
  unfold opal_prefixed, aggregated.
  cbn [maybe_joint_states maybe_tf maybe_odom maybe_end_effector_force].
  rewrite GetTf_Opal_body. unfold GetEndEffectorForce.
  destruct (api.kinematic_state rs) as [ks|], (api.manipulator_state rs) as [ms|];
    cbn [option_map]; (split; [|split; [|split]]);
    try (intros x Hx; discriminate Hx); intros x Hx; injection Hx as <-;
    try (cbn; split; reflexivity); try reflexivity.
  all: cbn [joint_states_of msg.name msg.transforms].
  all: try (apply Forall_map, Forall_forall; intros j _; eexists; reflexivity).
  all: apply Forall_map, Forall_forall; intros entry _;
       split; eexists; reflexivity.
Qed.

(** C10: the robot name given to the constructor does not influence
    [getRobotState]: for any two names and the same collaborators, SDK and
    call history, the two clients give the same result; and every frame
    and joint name of a returned state carries the literal prefix "Opal/",
    whatever the name. *)
Theorem getRobotState_ignores_robot_name
        (sdk : FrameHelpers) (client : RobotStateClient) (time_sync_api : TimeSyncApi)
        (robot_name1 robot_name2 : string) (calls : Calls) :
  DefaultRobotStateClient.getRobotState sdk
    (DefaultRobotStateClient.DefaultRobotStateClient client time_sync_api robot_name1)
    calls
  = DefaultRobotStateClient.getRobotState sdk
      (DefaultRobotStateClient.DefaultRobotStateClient client time_sync_api robot_name2)
      calls
  /\ forall out calls',
       DefaultRobotStateClient.getRobotState sdk
         (DefaultRobotStateClient.DefaultRobotStateClient client time_sync_api robot_name1)
         calls
       = (Returned (Expected out), calls') ->
       opal_prefixed out.
Proof.
  split; [reflexivity|].
  intros out calls' Hget.
  destruct (getRobotState_success sdk _ calls calls' out Hget)
    as (rs & skew & _ & _ & _ & _ & -> & _).
  apply aggregated_opal_prefixed.
Qed.

(** Two clients whose [frame_prefix_] members differ ("Spot/" and "") and
    whose states are nevertheless the same, prefixed "Opal/". *)
Lemma getRobotState_ignores_robot_name_witness :
  let spot := DefaultRobotStateClient.DefaultRobotStateClient
                (answering opal_state) (skewed_by (Duration.mk 5 0)) "Spot" in
  let unnamed := DefaultRobotStateClient.DefaultRobotStateClient
                   (answering opal_state) (skewed_by (Duration.mk 5 0)) "" in
  DefaultRobotStateClient.frame_prefix_ spot = "Spot/" /\
  DefaultRobotStateClient.frame_prefix_ unnamed = "" /\
  forall sdk : FrameHelpers,
    DefaultRobotStateClient.getRobotState sdk spot (mkCalls 0 0)
    = DefaultRobotStateClient.getRobotState sdk unnamed (mkCalls 0 0) /\
    opal_prefixed (aggregated sdk opal_state (Duration.mk 5 0)).
Proof.
  split; [reflexivity|]. split; [reflexivity|]. intro sdk.
  pose proof (getRobotState_ignores_robot_name sdk (answering opal_state)
                (skewed_by (Duration.mk 5 0)) "Spot" "" (mkCalls 0 0)) as [Heq Hpre].
  split; [exact Heq|].
  exact (Hpre _ _ eq_refl).
Defined.

(** ** The field-copying conversions *)

Lemma wifi_loop (comms : list api.CommsState) (init : msg.WiFiState) :
  for_each comms init
    (fun wifi_state comm_state =>
       match api.wifi_state comm_state with
       | Some ws => msg.mkWiFiState (api.current_mode ws) (api.essid ws)
       | None => wifi_state
       end)
  = match last_wifi comms with
    | Some ws => msg.mkWiFiState (api.current_mode ws) (api.essid ws)
    | None => init
    end.
Proof.
  unfold for_each. revert init.
  induction comms as [|comm rest IH]; intro init; [reflexivity|].
  cbn [fold_left last_wifi]. rewrite IH.
  destruct (last_wifi rest) as [ws|]; [reflexivity|].
  now destruct (api.wifi_state comm).
Qed.

(** X1: [GetWifiState] reports the wifi state of the last comms entry that
    has one (later entries overwrite earlier ones), and the default state
    (mode 0, empty essid) when no entry has one. *)
Theorem GetWifiState_last_wins (rs : api.RobotState) :
  GetWifiState rs =
  match last_wifi (api.comms_states rs) with
  | Some ws => msg.mkWiFiState (api.current_mode ws) (api.essid ws)
  | None => msg.mkWiFiState 0 ""
  end.
Proof. unfold GetWifiState. apply wifi_loop. Qed.

Lemma toDuration_in_range (d : Duration.t) :
  - 2 ^ 31 <= Duration.seconds d < 2 ^ 31 ->
  0 <= Duration.nanos d < 2 ^ 32 ->
  toDuration d = msg.mkDuration (Duration.seconds d) (Duration.nanos d).
Proof.
  intros Hs Hn. unfold toDuration, wrap_int32, wrap_uint32.
  change (2 ^ 31) with 2147483648 in *. change (2 ^ 32) with 4294967296 in *.
  rewrite !Z.mod_small by lia. f_equal. lia.
Qed.

(** 2^31 seconds and -1 nanoseconds come out as -2^31 and 2^32 - 1. *)
Lemma toDuration_wraps :
  toDuration (Duration.mk 2147483648 (-1))
  = msg.mkDuration (-2147483648) 4294967295.
Proof. reflexivity. Qed.

Lemma GetBatteryStates_map (rs : api.RobotState) (skew : Duration.t) :
  exists f,
    msg.battery_states (GetBatteryStates rs skew) = map f (api.battery_states rs) /\
    forall battery,
      msg.identifier (f battery) = api.identifier battery /\
      msg.temperatures (f battery) = api.temperatures battery /\
      msg.stamp (msg.bat_header (f battery))
        = applyClockSkew (api.bat_timestamp battery) skew /\
      msg.charge_percentage (f battery) = api.charge_percentage battery /\
      msg.estimated_runtime (f battery)
        = toDuration (api.estimated_runtime battery) /\
      msg.current (f battery) = api.current battery /\
      msg.voltage (f battery) = api.voltage battery /\
      msg.bat_status (f battery) = api.bat_status battery.
Proof.
  unfold GetBatteryStates. cbv zeta. eexists. split.
  - rewrite (for_each_wrapped msg.mkBatteryStateArray msg.battery_states _
                              (fun _ => eq_refl)).
    reflexivity.
  - intro battery. cbn. rewrite for_each_push_back. repeat split.
Qed.

(** X2: [GetBatteryStates] emits one battery message per battery of the
    robot state, in the same order; each carries its battery's identifier,
    readings and status, its temperatures unchanged and in order, its own
    timestamp corrected by the clock skew, and its estimated runtime
    converted to [int32] seconds and [uint32] nanoseconds (unchanged when
    the seconds fit 32 bits and the nanoseconds are not negative, wrapped
    modulo 2^32 otherwise). *)
Theorem GetBatteryStates_in_order (rs : api.RobotState) (skew : Duration.t) :
  let out := msg.battery_states (GetBatteryStates rs skew) in
  let batteries := api.battery_states rs in
  map msg.identifier out = map api.identifier batteries /\
  map msg.temperatures out = map api.temperatures batteries /\
  map (fun b => msg.stamp (msg.bat_header b)) out
    = map (fun b => applyClockSkew (api.bat_timestamp b) skew) batteries /\
  map msg.charge_percentage out = map api.charge_percentage batteries /\
  map msg.estimated_runtime out
    = map (fun b => toDuration (api.estimated_runtime b)) batteries /\
  map msg.current out = map api.current batteries /\
  map msg.voltage out = map api.voltage batteries /\
  map msg.bat_status out = map api.bat_status batteries /\
  forall d : Duration.t,
    - 2 ^ 31 <= Duration.seconds d < 2 ^ 31 ->
    0 <= Duration.nanos d < 2 ^ 32 ->
    toDuration d = msg.mkDuration (Duration.seconds d) (Duration.nanos d).
Proof.
  cbv zeta. destruct (GetBatteryStates_map rs skew) as (f & -> & Hf).
  rewrite !map_map.
  repeat match goal with |- _ /\ _ => split end;
    try exact toDuration_in_range;
    apply map_ext; intro battery;
    destruct (Hf battery) as (H1 & H2 & H3 & H4 & H5 & H6 & H7 & H8);
    assumption.
Qed.

Lemma GetFootState_map (rs : api.RobotState) :
  msg.states (GetFootState rs)
  = map (fun foot =>
           msg.mkFootState
             (msg.mkPoint (api.x (api.foot_position_rt_body foot))
                          (api.y (api.foot_position_rt_body foot))
                          (api.z (api.foot_position_rt_body foot)))
             (api.contact foot))
        (api.foot_state rs).
Proof.
  unfold GetFootState. cbv zeta.
  now rewrite (for_each_wrapped msg.mkFootStateArray msg.states _ (fun _ => eq_refl)).
Qed.

Lemma GetEstopStates_map (rs : api.RobotState) (skew : Duration.t) :
  msg.estop_states (GetEstopStates rs skew)
  = map (fun estop =>
           msg.mkEStopState
             (msg.stamped (applyClockSkew (api.es_timestamp estop) skew))
             (api.es_name estop) (api.es_type estop) (api.es_state estop)
             (api.state_description estop))
        (api.estop_states rs).
Proof.
  unfold GetEstopStates. cbv zeta.
  now rewrite (for_each_wrapped msg.mkEStopStateArray msg.estop_states _
                                (fun _ => eq_refl)).
Qed.

(** X3: [GetFootState] and [GetEstopStates] emit one message per foot and
    per e-stop of the robot state, in the same order: the i-th foot message
    carries the i-th foot's position and contact, the i-th e-stop message
    the i-th e-stop's name, type, state and description and its own
    timestamp corrected by the clock skew; in particular empty inputs give
    empty arrays. *)
Theorem GetFootState_GetEstopStates_in_order (rs : api.RobotState) (skew : Duration.t) :
  let feet := msg.states (GetFootState rs) in
  let estops := msg.estop_states (GetEstopStates rs skew) in
  map msg.contact feet = map api.contact (api.foot_state rs) /\
  map (fun f => msg.px (msg.foot_position_rt_body f)) feet
    = map (fun f => api.x (api.foot_position_rt_body f)) (api.foot_state rs) /\
  map (fun f => msg.py (msg.foot_position_rt_body f)) feet
    = map (fun f => api.y (api.foot_position_rt_body f)) (api.foot_state rs) /\
  map (fun f => msg.pz (msg.foot_position_rt_body f)) feet
    = map (fun f => api.z (api.foot_position_rt_body f)) (api.foot_state rs) /\
  map msg.es_name estops = map api.es_name (api.estop_states rs) /\
  map msg.es_type estops = map api.es_type (api.estop_states rs) /\
  map msg.es_state estops = map api.es_state (api.estop_states rs) /\
  map msg.state_description estops
    = map api.state_description (api.estop_states rs) /\
  map (fun e => msg.stamp (msg.es_header e)) estops
    = map (fun e => applyClockSkew (api.es_timestamp e) skew) (api.estop_states rs).
Proof.
  cbv zeta. rewrite GetFootState_map, GetEstopStates_map, !map_map.
  repeat split.
Qed.

(** X4: when the system fault state is present, [GetSystemFaultState] keeps
    active and historical faults apart and in order: the i-th active
    (historical) fault message is the conversion of the i-th active
    (historical) fault, with its name, code, uid, message and severity, its
    attributes unchanged and in order, its onset time corrected by the
    clock skew, and its duration converted to [int32] seconds and [uint32]
    nanoseconds (unchanged when in range, wrapped modulo 2^32 otherwise).
    A present state with no faults gives a present, empty message. *)
Theorem GetSystemFaultState_keeps_lists_apart
        (rs : api.RobotState) (sfs : api.SystemFaultState) (skew : Duration.t) :
  api.system_fault_state rs = Some sfs ->
  exists out,
    GetSystemFaultState rs skew = Some out /\
    msg.faults out = map (create_fault_message skew) (api.faults sfs) /\
    msg.historical_faults out
      = map (create_fault_message skew) (api.historical_faults sfs) /\
    forall fault,
      msg.sf_name (create_fault_message skew fault) = api.sf_name fault /\
      msg.code (create_fault_message skew fault) = api.code fault /\
      msg.uid (create_fault_message skew fault) = api.uid fault /\
      msg.error_message (create_fault_message skew fault) = api.error_message fault /\
      msg.severity (create_fault_message skew fault) = api.severity fault /\
      msg.attributes (create_fault_message skew fault) = api.attributes fault /\
      msg.sf_duration (create_fault_message skew fault)
        = toDuration (api.sf_duration fault) /\
      (- 2 ^ 31 <= Duration.seconds (api.sf_duration fault) < 2 ^ 31 ->
       0 <= Duration.nanos (api.sf_duration fault) < 2 ^ 32 ->
       msg.sf_duration (create_fault_message skew fault)
         = msg.mkDuration (Duration.seconds (api.sf_duration fault))
                          (Duration.nanos (api.sf_duration fault))) /\
      msg.stamp (msg.sf_header (create_fault_message skew fault))
        = applyClockSkew (api.sf_onset_timestamp fault) skew.
Proof.
  intro Hsfs. rewrite GetSystemFaultState_map, Hsfs.
  eexists. split; [reflexivity|]. split; [reflexivity|]. split; [reflexivity|].
  intro fault. unfold create_fault_message.
  cbn [msg.sf_name msg.code msg.uid msg.error_message msg.severity
       msg.attributes msg.sf_duration msg.sf_header msg.stamp msg.stamped].
  rewrite for_each_push_back.
  repeat match goal with |- _ /\ _ => split end; try reflexivity.
  apply toDuration_in_range.
Qed.

Lemma GetSystemFaultState_keeps_lists_apart_witness :
  api.system_fault_state faulty_state = Some sample_faults /\
  exists out,
    GetSystemFaultState faulty_state (Duration.mk 5 0) = Some out /\
    map msg.sf_name (msg.faults out) = ["battery"] /\
    map msg.sf_name (msg.historical_faults out) = ["camera"] /\
    map msg.attributes (msg.faults out) = [["power"; "warn"]].
Proof.
  split; [reflexivity|].
  destruct (GetSystemFaultState_keeps_lists_apart faulty_state sample_faults
              (Duration.mk 5 0) eq_refl) as (out & Hout & Hf & Hh & _).
  exists out. split; [exact Hout|]. rewrite Hf, Hh. repeat split.
Defined.

(** X5: [GetEndEffectorForce] depends on the manipulator state alone for
    its presence: whenever the manipulator state is present it returns a
    force in frame prefix + "hand", stamped with the corrected acquisition
    timestamp of the kinematic state; when the kinematic state is absent
    that timestamp is the default (zero) one, and no failure occurs. *)
Theorem GetEndEffectorForce_without_kinematic_state
        (rs : api.RobotState) (ms : api.ManipulatorState)
        (skew : Duration.t) (prefix : string) :
  api.manipulator_state rs = Some ms ->
  exists force,
    GetEndEffectorForce rs skew prefix = Some force /\
    msg.frame_id (msg.v3_header force) = prefix ++ "hand" /\
    (forall ks, api.kinematic_state rs = Some ks ->
       msg.stamp (msg.v3_header force)
         = applyClockSkew (api.acquisition_timestamp ks) skew) /\
    (api.kinematic_state rs = None ->
       msg.stamp (msg.v3_header force) = applyClockSkew Timestamp.default skew /\
       GetOdomTwist rs skew = None /\
       GetJointStates rs skew prefix = Returned None).
Proof.
  intro Hms. unfold GetEndEffectorForce, api.kinematic_state_or_default.
  rewrite Hms. eexists. split; [reflexivity|]. cbn.
  split; [reflexivity|]. split.
  - intros ks ->. reflexivity.
  - intro Hks. unfold GetOdomTwist, GetJointStates. rewrite Hks. repeat split.
Qed.

Lemma GetEndEffectorForce_without_kinematic_state_witness :
  api.manipulator_state (manipulator_only silent_gripper) = Some silent_gripper /\
  api.kinematic_state (manipulator_only silent_gripper) = None /\
  exists force,
    GetEndEffectorForce (manipulator_only silent_gripper) (Duration.mk 5 0) "Opal/"
      = Some force /\
    msg.frame_id (msg.v3_header force) = "Opal/hand" /\
    msg.stamp (msg.v3_header force) = msg.mkTime 5 0.
Proof.
  split; [reflexivity|]. split; [reflexivity|].
  destruct (GetEndEffectorForce_without_kinematic_state
              (manipulator_only silent_gripper) silent_gripper
              (Duration.mk 5 0) "Opal/" eq_refl)
    as (force & Hforce & Hframe & _ & Hnone).
  exists force. split; [exact Hforce|]. split; [exact Hframe|].
  exact (proj1 (Hnone eq_refl)).
Defined.

(** X6: the manipulator message and the end-effector force message agree:
    whenever [GetManipulatorState] returns a message, [GetEndEffectorForce]
    returns a force whose vector is that message's estimated end-effector
    force; each of the message's three [is_set] flags tells whether the
    source field was set, and a field that was not set is reported as all
    zeros. *)
Theorem GetManipulatorState_agrees_with_force
        (rs : api.RobotState) (m : msg.ManipulatorState)
        (skew : Duration.t) (prefix : string) :
  GetManipulatorState rs = Some m ->
  exists ms force,
    api.manipulator_state rs = Some ms /\
    GetEndEffectorForce rs skew prefix = Some force /\
    msg.vector force = msg.estimated_end_effector_force_in_hand m /\
    msg.estimated_end_effector_force_in_hand_is_set m
      = has (api.estimated_end_effector_force_in_hand ms) /\
    msg.velocity_of_hand_in_vision_is_set m = has (api.velocity_of_hand_in_vision ms) /\
    msg.velocity_of_hand_in_odom_is_set m = has (api.velocity_of_hand_in_odom ms) /\
    (msg.estimated_end_effector_force_in_hand_is_set m = false ->
     msg.estimated_end_effector_force_in_hand m
       = msg.mkVector3 0%float 0%float 0%float) /\
    (msg.velocity_of_hand_in_vision_is_set m = false ->
     msg.velocity_of_hand_in_vision m = toTwist None) /\
    (msg.velocity_of_hand_in_odom_is_set m = false ->
     msg.velocity_of_hand_in_odom m = toTwist None).
Proof.
  unfold GetManipulatorState, GetEndEffectorForce.
  destruct (api.manipulator_state rs) as [ms|]; [|discriminate].
  intro H. injection H as <-. exists ms. eexists.
  split; [reflexivity|]. split; [reflexivity|]. cbn.
  split; [reflexivity|]. split; [reflexivity|]. split; [reflexivity|].
  split; [reflexivity|].
  destruct (api.estimated_end_effector_force_in_hand ms),
    (api.velocity_of_hand_in_vision ms), (api.velocity_of_hand_in_odom ms);
    repeat split; intro H; try discriminate H; reflexivity.
Qed.

Lemma GetManipulatorState_agrees_with_force_witness :
  exists m force,
    GetManipulatorState (manipulator_only silent_gripper) = Some m /\
    GetEndEffectorForce (manipulator_only silent_gripper) (Duration.mk 5 0) "Opal/"
      = Some force /\
    msg.estimated_end_effector_force_in_hand_is_set m = false /\
    msg.vector force = msg.mkVector3 0%float 0%float 0%float.
Proof.
  eexists. 
  destruct (GetManipulatorState_agrees_with_force
              (manipulator_only silent_gripper) _ (Duration.mk 5 0) "Opal/" eq_refl)
    as (ms & force & _ & Hforce & Hvec & _ & _ & _ & Hzero & _).
  exists force. split; [reflexivity|]. split; [exact Hforce|].
  split; [reflexivity|]. rewrite Hvec. exact (Hzero eq_refl).
Defined.

(** *** More on [GetTf] *)

Lemma GetTf_nth (sdk : FrameHelpers) (rs : api.RobotState) (ks : api.KinematicState)
      (skew : Duration.t) (prefix target : string)
      (i : nat) (entry : string * api.ParentEdge) :
  api.kinematic_state rs = Some ks ->
  nth_error (api.child_to_parent_edge_map (api.transforms_snapshot ks)) i = Some entry ->
  exists tf_msg,
    GetTf sdk rs skew prefix target = Some tf_msg /\
    nth_error (msg.transforms tf_msg) i
      = Some (tf_entry sdk (api.acquisition_timestamp ks) skew prefix target entry).
Proof.
  intros Hks Hnth. rewrite GetTf_map, Hks. eexists. split; [reflexivity|].
  cbn [msg.transforms]. now rewrite nth_error_map, Hnth.
Qed.

(** X7: an entry of the transform graph whose prefixed child name differs
    from the invert-target frame id is passed through by [GetTf]: at the
    position of that entry the message has an edge with the stored
    transform, parent prefix + stored parent frame name and child
    prefix + child name. *)
Theorem GetTf_passes_other_edges_through
        (sdk : FrameHelpers) (rs : api.RobotState) (ks : api.KinematicState)
        (skew : Duration.t) (prefix target : string)
        (i : nat) (child : string) (edge : api.ParentEdge) :
  api.kinematic_state rs = Some ks ->
  nth_error (api.child_to_parent_edge_map (api.transforms_snapshot ks)) i
    = Some (child, edge) ->
  prefix ++ child <> target ->
  exists tf_msg e,
    GetTf sdk rs skew prefix target = Some tf_msg /\
    nth_error (msg.transforms tf_msg) i = Some e /\
    msg.transform e = toTransform (api.parent_tform_child edge) /\
    parent_id e = prefix ++ api.parent_frame_name edge /\
    child_id e = prefix ++ child /\
    msg.stamp (msg.tf_header e) = applyClockSkew (api.acquisition_timestamp ks) skew.
Proof.
  intros Hks Hnth Hne.
  destruct (GetTf_nth sdk rs ks skew prefix target i (child, edge) Hks Hnth)
    as (tf_msg & Htf & He).
  exists tf_msg. eexists. split; [exact Htf|]. split; [exact He|].
  rewrite (tf_entry_pass_through sdk _ skew prefix target (child, edge))
    by (intro H; apply Hne; now rewrite H).
  repeat split.
Qed.

Lemma GetTf_passes_other_edges_through_witness :
  api.kinematic_state (kinematic_only front_hips) = Some front_hips /\
  forall (sdk : FrameHelpers),
  exists tf_msg e,
    GetTf sdk (kinematic_only front_hips) (Duration.mk 5 0) "" "body" = Some tf_msg /\
    nth_error (msg.transforms tf_msg) 1 = Some e /\
    msg.transform e = toTransform sample_pose /\
    parent_id e = "vision" /\
    child_id e = "odom" /\
    msg.stamp (msg.tf_header e) = applyClockSkew (Timestamp.mk 100 0) (Duration.mk 5 0).
Proof.
  split; [reflexivity|]. intro sdk.
  refine (GetTf_passes_other_edges_through sdk (kinematic_only front_hips) front_hips
            (Duration.mk 5 0) "" "body" 1 "odom"
            (api.mkParentEdge "vision" sample_pose) eq_refl eq_refl _).
  discriminate.
Defined.

(** X8: when the child frame names of the transform graph are pairwise
    distinct (as the keys of a map are) and some entry's prefixed child
    name equals the invert-target frame id, every other entry is passed
    through: [GetTf] inverts at most one edge. *)
Theorem GetTf_inverts_at_most_one_edge
        (sdk : FrameHelpers) (rs : api.RobotState) (ks : api.KinematicState)
        (skew : Duration.t) (prefix target : string)
        (i j : nat) (child_i child_j : string) (edge_i edge_j : api.ParentEdge) :
  api.kinematic_state rs = Some ks ->
  NoDup (map fst (api.child_to_parent_edge_map (api.transforms_snapshot ks))) ->
  nth_error (api.child_to_parent_edge_map (api.transforms_snapshot ks)) i
    = Some (child_i, edge_i) ->
  nth_error (api.child_to_parent_edge_map (api.transforms_snapshot ks)) j
    = Some (child_j, edge_j) ->
  prefix ++ child_i = target ->
  j <> i ->
  exists tf_msg,
    GetTf sdk rs skew prefix target = Some tf_msg /\
    nth_error (msg.transforms tf_msg) j
      = Some (pass_through (api.acquisition_timestamp ks) skew prefix (child_j, edge_j)).
Proof.
  intros Hks Hnodup Hi Hj Htarget Hij.
  destruct (GetTf_nth sdk rs ks skew prefix target j (child_j, edge_j) Hks Hj)
    as (tf_msg & Htf & He).
  exists tf_msg. split; [exact Htf|]. rewrite He. f_equal.
  apply tf_entry_pass_through. cbn [fst]. subst target.
  intro Heq. apply append_inj_l in Heq. apply Hij.
  rewrite NoDup_nth_error in Hnodup. apply Hnodup.
  - apply nth_error_Some. rewrite nth_error_map, Hj. discriminate.
  - rewrite !nth_error_map, Hi, Hj. cbn. now rewrite Heq.
Qed.

Lemma GetTf_inverts_at_most_one_edge_witness :
  api.kinematic_state (kinematic_only front_hips) = Some front_hips /\
  NoDup (map fst (api.child_to_parent_edge_map (api.transforms_snapshot front_hips))) /\
  forall (sdk : FrameHelpers),
  exists tf_msg,
    GetTf sdk (kinematic_only front_hips) (Duration.mk 5 0) "" "body" = Some tf_msg /\
    nth_error (msg.transforms tf_msg) 1
      = Some (toTransformStamped sample_pose "vision" "odom"
                (applyClockSkew (Timestamp.mk 100 0) (Duration.mk 5 0))).
Proof.
  assert (Hnodup : NoDup (map fst (api.child_to_parent_edge_map
                                     (api.transforms_snapshot front_hips)))).
  { cbn. repeat constructor; cbn; intuition discriminate. }
  split; [reflexivity|]. split; [exact Hnodup|]. intro sdk.
  refine (GetTf_inverts_at_most_one_edge sdk (kinematic_only front_hips) front_hips
            (Duration.mk 5 0) "" "body" 0 1 "body" "odom"
            (api.mkParentEdge "odom" sample_pose)
            (api.mkParentEdge "vision" sample_pose)
            eq_refl Hnodup eq_refl eq_refl eq_refl _).
  discriminate.
Defined.

(** X9: when the behavior fault state is present, [GetBehaviorFaultState]
    emits one message per fault, in the same order, each with its fault's
    id, cause and status and its onset time corrected by the clock skew. *)
Theorem GetBehaviorFaultState_in_order
        (rs : api.RobotState) (bfs : api.BehaviorFaultState) (skew : Duration.t) :
  api.behavior_fault_state rs = Some bfs ->
  exists out,
    GetBehaviorFaultState rs skew = Some out /\
    map msg.behavior_fault_id (msg.bf_faults out)
      = map api.behavior_fault_id (api.bf_faults bfs) /\
    map msg.cause (msg.bf_faults out) = map api.cause (api.bf_faults bfs) /\
    map msg.bf_status (msg.bf_faults out) = map api.bf_status (api.bf_faults bfs) /\
    map (fun f => msg.stamp (msg.bf_header f)) (msg.bf_faults out)
      = map (fun f => applyClockSkew (api.bf_onset_timestamp f) skew)
            (api.bf_faults bfs).
Proof.
  intro Hbfs. unfold GetBehaviorFaultState. rewrite Hbfs. cbv zeta.
  rewrite (for_each_wrapped msg.mkBehaviorFaultState msg.bf_faults _
                            (fun _ => eq_refl)).
  eexists. split; [reflexivity|]. cbn [msg.bf_faults app]. rewrite !map_map.
  repeat split.
Qed.

Lemma GetBehaviorFaultState_in_order_witness :
  api.behavior_fault_state misbehaving_state = Some sample_behavior_faults /\
  exists out,
    GetBehaviorFaultState misbehaving_state (Duration.mk 5 0) = Some out /\
    map msg.behavior_fault_id (msg.bf_faults out) = [41; 42] /\
    map (fun f => msg.stamp (msg.bf_header f)) (msg.bf_faults out)
      = [msg.mkTime 100 0; msg.mkTime 101 0].
Proof.
  split; [reflexivity|].
  destruct (GetBehaviorFaultState_in_order misbehaving_state sample_behavior_faults
              (Duration.mk 5 0) eq_refl) as (out & Hout & Hid & _ & _ & Hstamp).
  exists out. split; [exact Hout|]. split; [exact Hid | exact Hstamp].
Defined.

(** *** More on [getRobotState] *)

(** X10: every call of [getRobotState] makes exactly one state request; it
    looks the clock skew up once when the fetch succeeded with a robot
    state and not at all otherwise (a failed fetch returns before the time
    sync API is consulted), also when the conversion then throws.  The
    fetch-only client of default_state_client.cpp makes one state request
    and no clock-skew lookup. *)
Theorem getRobotState_call_accounting
        (sdk : FrameHelpers) (self : DefaultRobotStateClient.t) (calls : Calls) :
  let r := GetRobotStateAsync (DefaultRobotStateClient.client_ self)
                              (state_requests calls) in
  let calls' := snd (DefaultRobotStateClient.getRobotState sdk self calls) in
  state_requests calls' = S (state_requests calls) /\
  skew_lookups calls'
    = (if ok (status r) && has_robot_state (response r)
       then S (skew_lookups calls) else skew_lookups calls) /\
  snd (DefaultStateClient.getRobotState
         (DefaultStateClient.DefaultStateClient
            (DefaultRobotStateClient.client_ self)) calls)
    = mkCalls (S (state_requests calls)) (skew_lookups calls).
Proof.
  intros r calls'. subst calls'.
  rewrite (getRobotState_cases sdk self calls). fold r.
  unfold DefaultStateClient.getRobotState, has_robot_state. cbn [DefaultStateClient.client_ DefaultStateClient.DefaultStateClient].
  fold r.
  destruct (ok (status r)), (robot_state (response r)); cbn; repeat split.
Qed.

(** X11: of the two exceptions the client's own code can raise
    ([std::out_of_range] from [kFriendlyJointNames.at] and
    [std::bad_optional_access] from the [value()] call in [GetOdom]),
    [getRobotState] throws the first exactly when the fetch succeeded with
    a robot state, the clock-skew lookup succeeded and the kinematic state
    holds a joint whose raw name is not a key of the table, and never
    throws the second: [GetOdom] does not throw for any robot state.
    (What the collaborators and the SDK may throw inside their own calls is
    outside this embedding.) *)
Theorem getRobotState_throws_exactly_on_unknown_joint
        (sdk : FrameHelpers) (self : DefaultRobotStateClient.t) (calls : Calls) :
  let r := GetRobotStateAsync (DefaultRobotStateClient.client_ self)
                              (state_requests calls) in
  let k := getClockSkew (DefaultRobotStateClient.time_sync_api_ self)
                        (skew_lookups calls) in
  let result := fst (DefaultRobotStateClient.getRobotState sdk self calls) in
  (result = Thrown out_of_range <->
   exists rs skew ks joint,
     ok (status r) = true /\
     robot_state (response r) = Some rs /\
     k = Expected skew /\
     api.kinematic_state rs = Some ks /\
     In joint (api.joint_states ks) /\
     find kFriendlyJointNames (api.name joint) = None) /\
  result <> Thrown bad_optional_access /\
  forall (rs : api.RobotState) (skew : Duration.t) (prefix : string)
         (is_using_vision : bool) (e : Exception),
    GetOdom sdk rs skew prefix is_using_vision <> Thrown e.
Proof.
  intros r k result. subst result.
  rewrite (getRobotState_cases sdk self calls). fold r k.
  split; [|split].
  - split.
    + destruct (ok (status r)); [|discriminate].
      destruct (robot_state (response r)) as [rs|]; [|discriminate].
      destruct k as [skew|err]; [|discriminate].
      destruct (all_joints_known rs) eqn:Hall; [discriminate|].
      intros _.
      destruct (all_joints_known_false rs Hall) as (ks & Hks & joint & Hin & Hfind).
      now exists rs, skew, ks, joint.
    + intros (rs & skew & ks & joint & -> & -> & -> & Hks & Hin & Hfind).
      cbn [fst].
      destruct (all_joints_known rs) eqn:Hall; [|reflexivity].
      exfalso. exact (all_joints_known_true rs ks Hks Hall joint Hin Hfind).
  - destruct (ok (status r)); [|discriminate].
    destruct (robot_state (response r)) as [rs|]; [|discriminate].
    destruct k as [skew|err]; [|discriminate].
    destruct (all_joints_known rs); discriminate.
  - intros rs skew prefix v e.
    destruct (api.kinematic_state rs) as [ks|] eqn:Hks.
    + rewrite (GetOdom_Some sdk rs ks skew prefix v Hks). discriminate.
    + rewrite (GetOdom_None sdk rs skew prefix v Hks). discriminate.
Qed.

Lemma getRobotState_throws_exactly_on_unknown_joint_witness :
  let self := DefaultRobotStateClient.DefaultRobotStateClient
                (answering unknown_joint_state) (skewed_by (Duration.mk 5 0)) "Opal" in
  all_joints_known unknown_joint_state = false /\
  forall (sdk : FrameHelpers),
    fst (DefaultRobotStateClient.getRobotState sdk self (mkCalls 0 0))
      = Thrown out_of_range /\
    exists ks joint,
      api.kinematic_state unknown_joint_state = Some ks /\
      In joint (api.joint_states ks) /\
      find kFriendlyJointNames (api.name joint) = None.
Proof.
  split; [reflexivity|]. intro sdk. split; [reflexivity|].
  destruct (proj1 (proj1 (getRobotState_throws_exactly_on_unknown_joint sdk
                     (DefaultRobotStateClient.DefaultRobotStateClient
                        (answering unknown_joint_state)
                        (skewed_by (Duration.mk 5 0)) "Opal")
                     (mkCalls 0 0))) eq_refl)
    as (rs & skew & ks & joint & _ & Hrs & _ & Hks & Hin & Hfind).
  injection Hrs as <-. now exists ks, joint.
Defined.

(** *** More on [GetJointStates] *)

Lemma find_In (m : list (string * string)) (key v : string) :
  find m key = Some v -> In (key, v) m.
Proof.
  induction m as [|[k w] m IH]; [discriminate|]. cbn [find].
  destruct (String.eqb key k) eqn:Hk.
  - intro H. injection H as <-. apply String.eqb_eq in Hk. subst k. now left.
  - intro H. right. exact (IH H).
Qed.

Lemma NoDup_snd_inj (m : list (string * string)) (a b v : string) :
  NoDup (map snd m) -> In (a, v) m -> In (b, v) m -> a = b.
Proof.
  induction m as [|[k w] m IH]; [intros _ []|].
  cbn [map snd]. intros Hnd Ha Hb. inversion Hnd as [|? ? Hnotin Hnd']. subst.
  destruct Ha as [Ha | Ha], Hb as [Hb | Hb].
  - congruence.
  - injection Ha as -> ->. exfalso. apply Hnotin.
    change v with (snd (b, v)). now apply in_map.
  - injection Hb as -> ->. exfalso. apply Hnotin.
    change v with (snd (a, v)). now apply in_map.
  - exact (IH Hnd' Ha Hb).
Qed.

Lemma kFriendlyJointNames_values_distinct : NoDup (map snd kFriendlyJointNames).
Proof.
  cbn. repeat (constructor; [cbn; intuition discriminate|]). constructor.
Qed.

Lemma friendly_name_inj (a b f : string) :
  find kFriendlyJointNames a = Some f ->
  find kFriendlyJointNames b = Some f ->
  a = b.
Proof.
  intros Ha Hb.
  exact (NoDup_snd_inj kFriendlyJointNames a b f kFriendlyJointNames_values_distinct
                       (find_In _ _ _ Ha) (find_In _ _ _ Hb)).
Qed.

Lemma joint_names_distinct (prefix : string) (joints : list api.JointState) :
  (forall j, In j joints -> find kFriendlyJointNames (api.name j) <> None) ->
  NoDup (map api.name joints) ->
  NoDup (map (joint_name prefix) joints).
Proof.
  induction joints as [|j joints IH]; intros Hknown Hnd; [constructor|].
  cbn [map] in *. inversion Hnd as [|? ? Hnotin Hnd']. subst.
  constructor.
  - intro Hin. apply in_map_iff in Hin. destruct Hin as (j' & Heq & Hj').
    apply Hnotin. unfold joint_name in Heq. apply append_inj_l in Heq.
    unfold friendly in Heq.
    pose proof (Hknown j (or_introl eq_refl)) as Hj.
    pose proof (Hknown j' (or_intror Hj')) as Hj'known.
    destruct (find kFriendlyJointNames (api.name j)) as [f|] eqn:Hf; [|congruence].
    destruct (find kFriendlyJointNames (api.name j')) as [f'|] eqn:Hf'; [|congruence].
    subst f'. rewrite (friendly_name_inj _ _ _ Hf Hf'). now apply in_map.
  - apply IH; [|exact Hnd']. intros j' Hj'. apply Hknown. now right.
Qed.

Lemma GetJointStates_returned (rs : api.RobotState) (skew : Duration.t)
      (prefix : string) (js : msg.JointState) :
  GetJointStates rs skew prefix = Returned (Some js) ->
  exists ks,
    api.kinematic_state rs = Some ks /\
    (forall j, In j (api.joint_states ks) ->
               find kFriendlyJointNames (api.name j) <> None) /\
    js = joint_states_of skew prefix ks.
Proof.
  intro Hjs.
  destruct (api.kinematic_state rs) as [ks|] eqn:Hks.
  - exists ks. split; [reflexivity|].
    destruct (all_joints_known rs) eqn:Hall.
    + pose proof (all_joints_known_true rs ks Hks Hall) as Hknown.
      split; [exact Hknown|].
      rewrite (GetJointStates_all_known rs ks skew prefix Hks Hknown) in Hjs.
      now injection Hjs as <-.
    + destruct (all_joints_known_false rs Hall) as (ks' & Hks' & Hu).
      rewrite (GetJointStates_unknown rs ks' skew prefix Hks' Hu) in Hjs.
      discriminate Hjs.
  - unfold GetJointStates in Hjs. rewrite Hks in Hjs. discriminate Hjs.
Qed.

(** X12: whenever [GetJointStates] returns a joint state, the kinematic
    state was present, every joint's raw name is a key of
    [kFriendlyJointNames], and the four arrays of the message (name,
    position, velocity, effort) all have one element per joint. *)
Theorem GetJointStates_returns_aligned_arrays
        (rs : api.RobotState) (skew : Duration.t) (prefix : string)
        (js : msg.JointState) :
  GetJointStates rs skew prefix = Returned (Some js) ->
  exists ks,
    api.kinematic_state rs = Some ks /\
    (forall j, In j (api.joint_states ks) ->
               exists f, find kFriendlyJointNames (api.name j) = Some f) /\
    List.length (msg.name js) = List.length (api.joint_states ks) /\
    List.length (msg.js_position js) = List.length (api.joint_states ks) /\
    List.length (msg.js_velocity js) = List.length (api.joint_states ks) /\
    List.length (msg.effort js) = List.length (api.joint_states ks) /\
    msg.stamp (msg.js_header js) = applyClockSkew (api.acquisition_timestamp ks) skew.
Proof.
  intro Hjs.
  destruct (GetJointStates_returned rs skew prefix js Hjs) as (ks & Hks & Hknown & ->).
  exists ks. split; [exact Hks|]. split.
  - intros j Hj. specialize (Hknown j Hj).
    destruct (find kFriendlyJointNames (api.name j)) as [f|]; [now exists f | congruence].
  - cbn. rewrite !length_map. repeat split.
Qed.

Lemma GetJointStates_returns_aligned_arrays_witness :
  exists js,
    GetJointStates (kinematic_only front_hips) (Duration.mk 5 0) "Opal/"
      = Returned (Some js) /\
    List.length (msg.name js) = 2%nat /\
    List.length (msg.js_position js) = 2%nat /\
    List.length (msg.js_velocity js) = 2%nat /\
    List.length (msg.effort js) = 2%nat.
Proof.
  eexists. split; [reflexivity|].
  destruct (GetJointStates_returns_aligned_arrays (kinematic_only front_hips)
              (Duration.mk 5 0) "Opal/" _ eq_refl)
    as (ks & Hks & _ & Hn & Hp & Hv & He & _).
  injection Hks as <-. repeat split; assumption.
Defined.

(** X13: [GetJointStates] keeps joints apart: no two keys of
    [kFriendlyJointNames] share a friendly name, so when the raw joint names
    of the kinematic state are pairwise distinct, the names of the returned
    joint state are pairwise distinct too. *)
Theorem GetJointStates_names_distinct
        (rs : api.RobotState) (ks : api.KinematicState) (skew : Duration.t)
        (prefix : string) (js : msg.JointState) :
  api.kinematic_state rs = Some ks ->
  GetJointStates rs skew prefix = Returned (Some js) ->
  NoDup (map api.name (api.joint_states ks)) ->
  NoDup (msg.name js).
Proof.
  intros Hks Hjs Hnd.
  destruct (GetJointStates_returned rs skew prefix js Hjs) as (ks' & Hks' & Hknown & ->).
  rewrite Hks in Hks'. injection Hks' as <-.
  cbn. exact (joint_names_distinct prefix _ Hknown Hnd).
Qed.

Lemma GetJointStates_names_distinct_witness :
  api.kinematic_state (kinematic_only front_hips) = Some front_hips /\
  NoDup (map api.name (api.joint_states front_hips)) /\
  exists js,
    GetJointStates (kinematic_only front_hips) (Duration.mk 5 0) "Opal/"
      = Returned (Some js) /\
    msg.name js = ["Opal/front_left_hip_x"; "Opal/front_right_hip_x"] /\
    NoDup (msg.name js).
Proof.
  assert (Hnd : NoDup (map api.name (api.joint_states front_hips))).
  { cbn. repeat constructor; cbn; intuition discriminate. }
  split; [reflexivity|]. split; [exact Hnd|].
  eexists. split; [reflexivity|]. split; [reflexivity|].
  exact (GetJointStates_names_distinct (kinematic_only front_hips) front_hips
           (Duration.mk 5 0) "Opal/" _ eq_refl eq_refl Hnd).
Defined.

(** X14: [GetOdom] and [GetOdomTwist] agree: whenever [GetOdomTwist]
    returns a twist message, [GetOdom] returns (for either reference frame,
    without throwing) an odometry message with the same twist, covariance
    included, and the same stamp; whenever [GetOdomTwist] returns nothing,
    so does [GetOdom]. *)
Theorem GetOdom_agrees_with_GetOdomTwist
        (sdk : FrameHelpers) (rs : api.RobotState) (skew : Duration.t)
        (prefix : string) (is_using_vision : bool) :
  (forall tw,
     GetOdomTwist rs skew = Some tw ->
     exists odom,
       GetOdom sdk rs skew prefix is_using_vision = Returned (Some odom) /\
       msg.od_twist odom = msg.tw_twist tw /\
       msg.stamp (msg.od_header odom) = msg.stamp (msg.tw_header tw)) /\
  (GetOdomTwist rs skew = None ->
   GetOdom sdk rs skew prefix is_using_vision = Returned None).
Proof.
  destruct (api.kinematic_state rs) as [ks|] eqn:Hks.
  - rewrite (GetOdomTwist_Some rs ks skew Hks),
            (GetOdom_Some sdk rs ks skew prefix is_using_vision Hks).
    split; [|discriminate].
    intros tw H. injection H as <-. eexists. repeat split.
  - rewrite (GetOdom_None sdk rs skew prefix is_using_vision Hks).
    unfold GetOdomTwist. rewrite Hks. split; [discriminate | reflexivity].
Qed.

Lemma GetOdom_agrees_with_GetOdomTwist_witness :
  exists tw,
    GetOdomTwist moving_body_state (Duration.mk 5 0) = Some tw /\
    forall (sdk : FrameHelpers),
    exists odom,
      GetOdom sdk moving_body_state (Duration.mk 5 0) "Opal/" false
        = Returned (Some odom) /\
      msg.od_twist odom = msg.tw_twist tw /\
      msg.stamp (msg.od_header odom) = msg.stamp (msg.tw_header tw).
Proof.
  eexists. split; [reflexivity|]. intro sdk.
  exact (proj1 (GetOdom_agrees_with_GetOdomTwist sdk moving_body_state
                  (Duration.mk 5 0) "Opal/" false) _ eq_refl).
Defined.
